(** * The native Ascon binding: [core/_ascon_native.c]

    A shallow embedding of the CPython extension module that wraps the
    vendored Ascon AEAD reference code, and the properties of its two entry
    points [native_encrypt] and [native_decrypt].

    The C file is a boundary layer: it checks buffer lengths, looks the
    variant name up in a two-entry table, allocates one [bytes] object and
    calls the vendored primitive through a function pointer.  The embedding
    keeps that shape:

    - a [Py_buffer] is a base pointer and a signed length, as in the C
      struct; a pointer is the map from offsets to the bytes behind it;
    - the statements of a function body run in a small monad that threads
      the log of externally visible actions (allocation, primitive call,
      reference drop, buffer release) and implements [goto done];
    - the vendored primitive, the allocator and the platform's data model
      are parameters. *)

From Stdlib Require Import ZArith String Ascii Strings.Byte Lia List DecimalString.
From stdpp Require Import base tactics option list list_numbers.
Import ListNotations.

Local Open Scope Z_scope.

(** ** The part of the CPython C API the file uses *)

Module Python.

(** [Py_ssize_t] has the width of [size_t]; the two data models CPython
    is built for. *)
Inductive data_model : Set := ILP32 | LP64.

Definition size_t_bits (dm : data_model) : Z :=
  match dm with ILP32 => 32 | LP64 => 64 end.

(** pyport.h: [#define PY_SSIZE_T_MAX ((Py_ssize_t)(((size_t)-1)>>1))]. *)
Definition PY_SSIZE_T_MAX (dm : data_model) : Z :=
  Z.shiftr (2 ^ size_t_bits dm - 1) 1.

(** [(uint64_t)value]: conversion to the unsigned 64-bit type. *)
Definition to_uint64 (value : Z) : Z := value mod 2 ^ 64.

(** Bytes are compared with [Byte.eqb]. *)
#[global] Instance byte_eq_decision : EqDecision byte.
Proof.
  intros x y. destruct (Byte.eqb x y) eqn:E.
  - left. now apply byte_dec_bl.
  - right. now apply eqb_false.
Defined.

(** A [const uint8_t *]: the byte found at each offset from the pointer. *)
Definition ptr : Type := Z -> byte.

(** Pointer arithmetic, [p + off]. *)
Definition ptr_add (p : ptr) (off : Z) : ptr := fun i => p (off + i).

(** The two fields of [Py_buffer] the file reads. *)
Record Py_buffer : Type := { buf : ptr; len : Z }.

(** What the [y*] format of [PyArg_ParseTuple] guarantees about a view it
    has filled: the length is a non-negative [Py_ssize_t]. *)
Definition parsed (dm : data_model) (view : Py_buffer) : Prop :=
  0 <= len view <= PY_SSIZE_T_MAX dm.

(** The exception types the file raises, and the one the allocator sets. *)
Inductive PyExc : Set :=
| PyExc_ValueError
| PyExc_OverflowError
| PyExc_RuntimeError
| PyExc_MemoryError.

(** What a [METH_VARARGS] function hands back to the interpreter: a new
    [bytes] object, the [None] singleton, or [NULL] with the error
    indicator set. *)
Inductive PyObject : Type :=
| PyBytes (ob_sval : list byte)
| Py_None
| NULL (exc : PyExc) (msg : string).

(** The bytes a view exposes, [bytes(view)]. *)
Definition bytes_of (p : ptr) (n : Z) : list byte := map p (seqZ 0 n).

Definition bytes_of_view (view : Py_buffer) : list byte :=
  bytes_of (buf view) (len view).

(** The pointer to the storage of a [bytes] object; [ob_sval] is followed
    by a NUL byte. *)
Definition ptr_of (b : list byte) : ptr :=
  fun i => if i <? 0 then x00 else nth (Z.to_nat i) b x00.

(** The view [y*] produces for a [bytes] argument. *)
Definition view_of_bytes (b : list byte) : Py_buffer :=
  {| buf := ptr_of b; len := Z.of_nat (length b) |}.

(** The externally visible actions of a call, in program order. *)
Inductive event : Type :=
| EvAlloc (size : Z)
    (* PyBytes_FromStringAndSize(NULL, size) returned a new object *)
| EvAllocFailed (size : Z)
    (* PyBytes_FromStringAndSize(NULL, size) returned NULL *)
| EvEncrypt (variant : string) (mlen adlen : Z)
    (* variant->encrypt_fn was called *)
| EvDecrypt (variant : string) (clen adlen : Z)
    (* variant->decrypt_fn was called *)
| EvDecref
    (* Py_DECREF(out_obj): the only reference is dropped *)
| EvReleaseBuffers.
    (* release_buffers(&key, &nonce, &aad, &text) *)

Definition trace : Type := list event.

(** The allocator as the call sees it: whether a request of a given size
    is served, and the bytes that happen to be in the fresh storage
    ([PyBytes_FromStringAndSize(NULL, n)] leaves it uninitialised). *)
Record allocator : Type :=
  { alloc_ok : Z -> bool; uninitialised : Z -> byte }.

(** [printf]'s [%zd]. *)
Definition format_zd (value : Z) : string :=
  NilZero.string_of_int (Z.to_int value).

End Python.
Import Python.

(** ** Straight-line C with [goto done] *)

(** A statement either falls through with a value or jumps to the [done]
    label with the function's [result]; both carry the log on. *)
Inductive flow (A : Type) : Type :=
| Next (a : A)
| Done (result : PyObject).
Arguments Next {A} a.
Arguments Done {A} result.

Definition M (A : Type) : Type := trace -> flow A * trace.

Definition ret {A} (a : A) : M A := fun tr => (Next a, tr).

Definition bind {A B} (m : M A) (k : A -> M B) : M B :=
  fun tr =>
    match m tr with
    | (Next a, tr') => k a tr'
    | (Done r, tr') => (Done r, tr')
    end.

Definition emit (e : event) : M unit := fun tr => (Next tt, tr ++ [e]).

(** [result = r; goto done;] *)
Definition goto_done {A} (r : PyObject) : M A := fun tr => (Done r, tr).

(** [PyErr_SetString(exc, msg); goto done;] with [result] still [NULL].
    A helper that sets the error and returns [-1] is followed at each call
    site by [goto done], so it is the same jump. *)
Definition raise {A} (exc : PyExc) (msg : string) : M A :=
  goto_done (NULL exc msg).

Declare Scope c_scope.
Delimit Scope c_scope with C.
Notation "x <- m ;; k" := (bind m (fun x => k))
  (at level 100, m at next level, k at level 200, right associativity)
  : c_scope.
Notation "m ;; k" := (bind m (fun _ => k))
  (at level 100, k at level 200, right associativity) : c_scope.

(** The [done:] label: [release_buffers(...); return result;]. *)
Definition at_done (body : M PyObject) : trace -> PyObject * trace :=
  fun tr =>
    match body tr with
    | (Next r, tr') | (Done r, tr') => (r, tr' ++ [EvReleaseBuffers])
    end.

(** ** The vendored primitive *)

(** [int encrypt_fn(uint8_t *t, uint8_t *c, const uint8_t *m, uint64_t mlen,
                    const uint8_t *ad, uint64_t adlen,
                    const uint8_t *npub, const uint8_t *k)]:
    the status, and the bytes stored through [c] and through [t]. *)
Record enc_out : Type := { enc_rc : Z; enc_c : list byte; enc_t : list byte }.

Definition encrypt_fn_t : Type :=
  ptr -> Z -> ptr -> Z -> ptr -> ptr -> enc_out.

(** [int decrypt_fn(uint8_t *m, const uint8_t *t, const uint8_t *c,
                    uint64_t clen, const uint8_t *ad, uint64_t adlen,
                    const uint8_t *npub, const uint8_t *k)]:
    the status, and the bytes stored through [m]. *)
Record dec_out : Type := { dec_rc : Z; dec_m : list byte }.

Definition decrypt_fn_t : Type :=
  ptr -> ptr -> Z -> ptr -> Z -> ptr -> ptr -> dec_out.

(** The four entry points the two [#include]s of [aead.c] define. *)
Record ascon_c : Type := {
  ascon128_ascon_aead_encrypt : encrypt_fn_t;
  ascon128_ascon_aead_decrypt : decrypt_fn_t;
  ascon128a_ascon_aead_encrypt : encrypt_fn_t;
  ascon128a_ascon_aead_decrypt : decrypt_fn_t
}.

(** ** libc *)

Definition strlen (s : string) : nat := String.length s.

(** The byte at the head of a C string; past the last character stands the
    terminator. *)
Definition head_byte (s : string) : ascii :=
  match s with String a _ => a | EmptyString => zero end.

Definition tail_bytes (s : string) : string :=
  match s with String _ r => r | EmptyString => EmptyString end.

(** [memcmp(s1, s2, n)]: zero when the first [n] bytes agree, otherwise the
    difference of the first pair of bytes that differ. *)
Fixpoint memcmp (s1 s2 : string) (n : nat) : Z :=
  match n with
  | O => 0
  | S n' =>
      let a := head_byte s1 in
      let b := head_byte s2 in
      if Ascii.eqb a b then memcmp (tail_bytes s1) (tail_bytes s2) n'
      else Z.of_N (N_of_ascii a) - Z.of_N (N_of_ascii b)
  end.

(** Bytes stored through [out + off]: the storage keeps its size. *)
Definition store (out : list byte) (off : Z) (data : list byte) : list byte :=
  list_inserts (Z.to_nat off) data out.

(** ** [_ascon_native.c] *)

Definition ASCON_TAG_BYTES : Z := 16.
Definition ASCON_NONCE_BYTES : Z := 16.
Definition ASCON_KEY_BYTES : Z := 16.

Record ascon_variant : Type := {
  name : string;
  encrypt_fn : encrypt_fn_t;
  decrypt_fn : decrypt_fn_t
}.

Section Binding.

Variable dm : data_model.
Variable heap : allocator.
Variable vendor : ascon_c.

(** [static const struct ascon_variant kVariants[]]. *)
Definition kVariants : list ascon_variant :=
  [ {| name := "Ascon-AEAD128";
       encrypt_fn := ascon128_ascon_aead_encrypt vendor;
       decrypt_fn := ascon128_ascon_aead_decrypt vendor |};
    {| name := "Ascon-AEAD128a";
       encrypt_fn := ascon128a_ascon_aead_encrypt vendor;
       decrypt_fn := ascon128a_ascon_aead_decrypt vendor |} ].

(** The loop of [resolve_variant] over the entries still to visit. *)
Fixpoint resolve_variant_loop (rest : list ascon_variant)
         (name_ : string) (name_len : Z) : option ascon_variant :=
  match rest with
  | [] => None
  | entry :: rest' =>
      let candidate := name entry in
      let candidate_len := strlen candidate in
      if negb (Z.of_nat candidate_len =? name_len)
      then resolve_variant_loop rest' name_ name_len
      else if memcmp candidate name_ candidate_len =? 0
           then Some entry
           else resolve_variant_loop rest' name_ name_len
  end.

(** [resolve_variant(name, name_len)]: the entry found, or [NULL]. *)
Definition resolve_variant (name_ : string) (name_len : Z)
  : option ascon_variant :=
  resolve_variant_loop kVariants name_ name_len.

(** [convert_length(value, &dst, field)]: the value left in [*dst]. *)
Definition convert_length (value : Z) (field : string) : M Z :=
  if value <? 0
  then raise PyExc_ValueError (field ++ " length must be non-negative")%string
  else ret (to_uint64 value).

Definition ensure_exact_length (view : Py_buffer) (required : Z)
           (label : string) : M unit :=
  if negb (len view =? required)
  then raise PyExc_ValueError
             (label ++ " must be " ++ format_zd required ++ " bytes")%string
  else ret tt.

Definition ensure_min_length (view : Py_buffer) (required : Z)
           (label : string) : M unit :=
  if len view <? required
  then raise PyExc_ValueError
             (label ++ " must be at least " ++ format_zd required
                    ++ " bytes")%string
  else ret tt.

(** [PyBytes_FromStringAndSize(NULL, size)] followed by
    [if (out_obj == NULL) goto done;]. *)
Definition PyBytes_FromStringAndSize_NULL (size : Z) : M (list byte) :=
  if alloc_ok heap size
  then (emit (EvAlloc size) ;; ret (map (uninitialised heap) (seqZ 0 size)))%C
  else (emit (EvAllocFailed size) ;; raise PyExc_MemoryError "")%C.

(** [native_encrypt], from the point where [PyArg_ParseTuple] has filled
    the four views and the variant name; [s#] sets [variant_len] to the
    length of the name.  The tests on [plaintext.len] keep the signed
    arithmetic in range, so it is written without wrap-around. *)
Definition native_encrypt (key nonce aad plaintext : Py_buffer)
           (variant_name : string) : trace -> PyObject * trace :=
  let variant_len := Z.of_nat (String.length variant_name) in
  at_done (
    ensure_exact_length key ASCON_KEY_BYTES "key" ;;
    ensure_min_length nonce ASCON_NONCE_BYTES "nonce" ;;
    variant <- match resolve_variant variant_name variant_len with
               | None => raise PyExc_ValueError "unknown Ascon variant"
               | Some v => ret v
               end ;;
    aad_len <- convert_length (len aad) "aad" ;;
    msg_len <- convert_length (len plaintext) "plaintext" ;;
    (if len plaintext >? PY_SSIZE_T_MAX dm - ASCON_TAG_BYTES
     then raise PyExc_OverflowError
                "ciphertext length exceeds platform limits"
     else ret tt) ;;
    let out_len := len plaintext + ASCON_TAG_BYTES in
    out_obj <- PyBytes_FromStringAndSize_NULL out_len ;;
    let tag_off := len plaintext in
    emit (EvEncrypt (name variant) msg_len aad_len) ;;
    let r := encrypt_fn variant (buf plaintext) msg_len (buf aad) aad_len
                        (buf nonce) (buf key) in
    let out_bytes := store (store out_obj 0 (enc_c r)) tag_off (enc_t r) in
    if negb (enc_rc r =? 0)
    then emit EvDecref ;;
         raise PyExc_RuntimeError "Ascon encryption failed"
    else ret (PyBytes out_bytes)
  )%C.

(** [native_decrypt], from the same point. *)
Definition native_decrypt (key nonce aad ciphertext : Py_buffer)
           (variant_name : string) : trace -> PyObject * trace :=
  let variant_len := Z.of_nat (String.length variant_name) in
  at_done (
    ensure_exact_length key ASCON_KEY_BYTES "key" ;;
    ensure_min_length nonce ASCON_NONCE_BYTES "nonce" ;;
    (if len ciphertext <? ASCON_TAG_BYTES
     then raise PyExc_ValueError "ciphertext too short"
     else ret tt) ;;
    variant <- match resolve_variant variant_name variant_len with
               | None => raise PyExc_ValueError "unknown Ascon variant"
               | Some v => ret v
               end ;;
    let plaintext_len := len ciphertext - ASCON_TAG_BYTES in
    aad_len <- convert_length (len aad) "aad" ;;
    body_len <- convert_length plaintext_len "ciphertext" ;;
    out_obj <- PyBytes_FromStringAndSize_NULL plaintext_len ;;
    let cipher_ptr := buf ciphertext in
    let tag_ptr := ptr_add cipher_ptr plaintext_len in
    emit (EvDecrypt (name variant) body_len aad_len) ;;
    let r := decrypt_fn variant tag_ptr cipher_ptr body_len (buf aad)
                        aad_len (buf nonce) (buf key) in
    let out_bytes := store out_obj 0 (dec_m r) in
    if negb (dec_rc r =? 0)
    then emit EvDecref ;;
         goto_done Py_None
    else ret (PyBytes out_bytes)
  )%C.

End Binding.

(** ** The call contract of the vendored primitive *)

(** Two pointers with the same [n] leading bytes. *)
Definition agree (n : Z) (p q : ptr) : Prop :=
  forall i, 0 <= i < n -> p i = q i.

(** Modelled from the spec: the source of the vendored [aead.c] is not part
    of the binding.  Its encrypt entry point
    [encrypt(tag_out, body_out, message, message_len, aad, aad_len, nonce, key)]
    reads [message_len] bytes of message, [aad_len] bytes of associated
    data, a 16-byte key and the first 16 bytes of the nonce ("only the
    first 16 bytes are semantically consumed by the primitive"). *)
Definition enc_reads (enc : encrypt_fn_t) : Prop :=
  forall m m' mlen ad ad' adlen npub npub' k k',
    agree mlen m m' -> agree adlen ad ad' ->
    agree ASCON_NONCE_BYTES npub npub' -> agree ASCON_KEY_BYTES k k' ->
    enc m mlen ad adlen npub k = enc m' mlen ad' adlen npub' k'.

(** Modelled from the spec: the decrypt entry point of the vendored
    primitive, [decrypt(plaintext_out, tag_in, body_in, body_len, aad,
    aad_len, nonce, key)], reads a 16-byte tag, [body_len] bytes of body,
    [aad_len] bytes of associated data, a 16-byte key and the first 16
    bytes of the nonce. *)
Definition dec_reads (dec : decrypt_fn_t) : Prop :=
  forall t t' c c' clen ad ad' adlen npub npub' k k',
    agree ASCON_TAG_BYTES t t' -> agree clen c c' -> agree adlen ad ad' ->
    agree ASCON_NONCE_BYTES npub npub' -> agree ASCON_KEY_BYTES k k' ->
    dec t c clen ad adlen npub k = dec t' c' clen ad' adlen npub' k'.

(** Modelled from the spec: the vendored encrypt operation writes "the
    16-byte tag" and a ciphertext body as long as the message. *)
Definition enc_writes (enc : encrypt_fn_t) : Prop :=
  forall m mlen ad adlen npub k,
    0 <= mlen ->
    length (enc_c (enc m mlen ad adlen npub k)) = Z.to_nat mlen /\
    length (enc_t (enc m mlen ad adlen npub k)) = Z.to_nat ASCON_TAG_BYTES.

(** Modelled from the spec: "the primitive is specified to never fail given
    valid inputs"; status 0 denotes success. *)
Definition enc_succeeds (enc : encrypt_fn_t) : Prop :=
  forall m mlen ad adlen npub k,
    0 <= mlen -> 0 <= adlen -> enc_rc (enc m mlen ad adlen npub k) = 0.

(** Modelled from the spec: the vendored decrypt-and-verify operation,
    given the body and tag its encrypt operation produced under the same
    key, nonce and associated data, reports success (status 0) and stores
    the message. *)
Definition dec_inverts (enc : encrypt_fn_t) (dec : decrypt_fn_t) : Prop :=
  forall m mlen ad adlen npub k,
    0 <= mlen -> 0 <= adlen ->
    let r := enc m mlen ad adlen npub k in
    dec (ptr_of (enc_t r)) (ptr_of (enc_c r)) mlen ad adlen npub k
    = {| dec_rc := 0; dec_m := bytes_of m mlen |}.

(** Modelled from the spec: the whole call contract of one variant of the
    vendored primitive (section 6, "External collaborator contract"). *)
Record aead_contract (enc : encrypt_fn_t) (dec : decrypt_fn_t) : Prop := {
  contract_enc_reads : enc_reads enc;
  contract_dec_reads : dec_reads dec;
  contract_enc_writes : enc_writes enc;
  contract_enc_succeeds : enc_succeeds enc;
  contract_dec_inverts : dec_inverts enc dec
}.

(** A property of every entry of the variant table. *)
Definition each_variant (vendor : ascon_c) (P : ascon_variant -> Prop) : Prop :=
  Forall P (kVariants vendor).

Definition vendor_contract (vendor : ascon_c) : Prop :=
  each_variant vendor (fun v => aead_contract (encrypt_fn v) (decrypt_fn v)).

(** ** An instance of the contract to run the binding on *)

(** Not Ascon: a keyed pad with a 16-byte checksum, parameterised by a
    constant that tells the two table entries apart.  It reads and writes
    through its pointers exactly as the contract says, and its decrypt
    refuses a tag that does not match. *)
Module Pad.

Definition bits : Type :=
  (bool * (bool * (bool * (bool * (bool * (bool * (bool * bool)))))))%type.

Definition xor_bits (a b : bits) : bits :=
  let '(a0, (a1, (a2, (a3, (a4, (a5, (a6, a7))))))) := a in
  let '(b0, (b1, (b2, (b3, (b4, (b5, (b6, b7))))))) := b in
  (xorb a0 b0, (xorb a1 b1, (xorb a2 b2, (xorb a3 b3,
   (xorb a4 b4, (xorb a5 b5, (xorb a6 b6, xorb a7 b7))))))).

Definition xor_byte (a b : byte) : byte :=
  Byte.of_bits (xor_bits (Byte.to_bits a) (Byte.to_bits b)).

Definition checksum (l : list byte) : byte := fold_right xor_byte x00 l.

Definition pad (rate : byte) (npub k : ptr) (i : Z) : byte :=
  xor_byte (k (i mod 16)) (xor_byte (npub (i mod 16)) rate).

Definition tag_of (rate : byte) (msg aad : list byte) (npub k : ptr)
  : list byte :=
  let mac := xor_byte (checksum aad) (checksum msg) in
  map (fun j => xor_byte mac (pad rate npub k j)) (seqZ 0 16).

Definition encrypt (rate : byte) : encrypt_fn_t :=
  fun m mlen ad adlen npub k =>
    {| enc_rc := 0;
       enc_c := map (fun i => xor_byte (m i) (pad rate npub k i))
                    (seqZ 0 mlen);
       enc_t := tag_of rate (bytes_of m mlen) (bytes_of ad adlen) npub k |}.

Definition decrypt (rate : byte) : decrypt_fn_t :=
  fun t c clen ad adlen npub k =>
    let msg := map (fun i => xor_byte (c i) (pad rate npub k i))
                   (seqZ 0 clen) in
    let tag := tag_of rate msg (bytes_of ad adlen) npub k in
    {| dec_rc := if bool_decide (tag = bytes_of t 16) then 0 else -1;
       dec_m := msg |}.

Definition vendor : ascon_c :=
  {| ascon128_ascon_aead_encrypt := encrypt x08;
     ascon128_ascon_aead_decrypt := decrypt x08;
     ascon128a_ascon_aead_encrypt := encrypt x10;
     ascon128a_ascon_aead_decrypt := decrypt x10 |}.

End Pad.

(** Concrete surroundings for running the binding: an allocator that
    serves every request and hands out storage full of [0xAA]. *)
Definition plenty : allocator :=
  {| alloc_ok := fun _ => true; uninitialised := fun _ => xaa |}.

(** An allocator that serves nothing. *)
Definition exhausted : allocator :=
  {| alloc_ok := fun _ => false; uninitialised := fun _ => xaa |}.

(** The view of the text of a string literal, [b"..."]. *)
Definition view_of_string (s : string) : Py_buffer :=
  view_of_bytes (list_byte_of_string s).

(** A view of [n] zero bytes that are never materialised. *)
Definition zeros (n : Z) : Py_buffer := {| buf := fun _ => x00; len := n |}.

(** ** What a call hands to the primitive and what it returns *)

(** The call [native_encrypt] makes once every check has passed. *)
Definition encrypt_call (key nonce aad text : Py_buffer) (v : ascon_variant)
  : enc_out :=
  encrypt_fn v (buf text) (len text) (buf aad) (len aad) (buf nonce) (buf key).

(** The buffer it returns: fresh storage, the body stored at its start
    and the tag stored at [out_bytes + plaintext.len]. *)
Definition encrypt_output (heap : allocator) (key nonce aad text : Py_buffer)
           (v : ascon_variant) : list byte :=
  store (store (map (uninitialised heap) (seqZ 0 (len text + 16))) 0
               (enc_c (encrypt_call key nonce aad text v)))
        (len text) (enc_t (encrypt_call key nonce aad text v)).

(** The call [native_decrypt] makes once every check has passed: the tag
    is read at [cipher_ptr + plaintext_len]. *)
Definition decrypt_call (key nonce aad text : Py_buffer) (v : ascon_variant)
  : dec_out :=
  decrypt_fn v (ptr_add (buf text) (len text - 16)) (buf text)
             (len text - 16) (buf aad) (len aad) (buf nonce) (buf key).

(** The buffer it returns on success: fresh storage with the message
    stored at its start. *)
Definition decrypt_output (heap : allocator) (key nonce aad text : Py_buffer)
           (v : ascon_variant) : list byte :=
  store (map (uninitialised heap) (seqZ 0 (len text - 16))) 0
        (dec_m (decrypt_call key nonce aad text v)).

(** The error [convert_length] raises for a negative length. *)
Definition negative_length_error (field : string) : PyObject :=
  NULL PyExc_ValueError (field ++ " length must be non-negative")%string.

(** The last byte of a message tells the negative-length error from the
    other errors. *)
Fixpoint last_byte (s : string) : ascii :=
  match s with
  | EmptyString => zero
  | String a r => match r with EmptyString => a | _ => last_byte r end
  end.

(** Sample arguments: a key, a nonce, a longer nonce with the same first
    16 bytes, and the ciphertext the binding returns for ["hello"] under
    the pad instance. *)
Definition sample_key : Py_buffer := view_of_string "0123456789abcdef".
Definition sample_nonce : Py_buffer := view_of_string "fedcba9876543210".
Definition sample_long_nonce : Py_buffer :=
  view_of_string "fedcba9876543210-and-a-tail".
Definition sample_aad : Py_buffer := view_of_string "hdr".

Definition sample_ciphertext : list byte :=
  Eval vm_compute in
    match native_encrypt LP64 plenty Pad.vendor sample_key sample_nonce
                         sample_aad (view_of_string "hello") "Ascon-AEAD128" []
    with
    | (PyBytes ct, _) => ct
    | _ => []
    end.

(** ** Reading the log of a call *)

(** The sizes a log shows the allocator was asked for, served or not. *)
Fixpoint requested (tr : trace) : list Z :=
  match tr with
  | [] => []
  | EvAlloc size :: rest | EvAllocFailed size :: rest => size :: requested rest
  | _ :: rest => requested rest
  end.

(** ** A primitive that reports an internal fault *)

(** An encrypt entry point that stores the message itself as the body and
    then returns [-1]: what reaches the caller of the binding if anything
    of the output buffer does. *)
Definition faulty_encrypt : encrypt_fn_t :=
  fun m mlen ad adlen npub k =>
    {| enc_rc := -1; enc_c := bytes_of m mlen; enc_t := [] |}.

(** The pad instance with the [ascon128] encrypt entry point replaced by
    the faulty one. *)
Definition faulty_vendor : ascon_c :=
  {| ascon128_ascon_aead_encrypt := faulty_encrypt;
     ascon128_ascon_aead_decrypt := Pad.decrypt x08;
     ascon128a_ascon_aead_encrypt := Pad.encrypt x10;
     ascon128a_ascon_aead_decrypt := Pad.decrypt x10 |}.

(** ** The paths through the entry points *)

(** The paths of [native_encrypt] for arguments the parser has filled, each
    with the condition that selects it, the result and the log. *)
Inductive encrypt_path (dm : data_model) (heap : allocator) (vendor : ascon_c)
          (key nonce aad text : Py_buffer) (variant_name : string)
          (tr : trace) : PyObject * trace -> Prop :=
| EncKey :
    len key <> 16 ->
    encrypt_path dm heap vendor key nonce aad text variant_name tr
      (NULL PyExc_ValueError "key must be 16 bytes", tr ++ [EvReleaseBuffers])
| EncNonce :
    len key = 16 -> len nonce < 16 ->
    encrypt_path dm heap vendor key nonce aad text variant_name tr
      (NULL PyExc_ValueError "nonce must be at least 16 bytes",
       tr ++ [EvReleaseBuffers])
| EncVariant :
    len key = 16 -> 16 <= len nonce ->
    resolve_variant vendor variant_name
                    (Z.of_nat (String.length variant_name)) = None ->
    encrypt_path dm heap vendor key nonce aad text variant_name tr
      (NULL PyExc_ValueError "unknown Ascon variant", tr ++ [EvReleaseBuffers])
| EncOverflow v :
    len key = 16 -> 16 <= len nonce ->
    resolve_variant vendor variant_name
                    (Z.of_nat (String.length variant_name)) = Some v ->
    PY_SSIZE_T_MAX dm - 16 < len text ->
    encrypt_path dm heap vendor key nonce aad text variant_name tr
      (NULL PyExc_OverflowError "ciphertext length exceeds platform limits",
       tr ++ [EvReleaseBuffers])
| EncNoMemory v :
    len key = 16 -> 16 <= len nonce ->
    resolve_variant vendor variant_name
                    (Z.of_nat (String.length variant_name)) = Some v ->
    len text <= PY_SSIZE_T_MAX dm - 16 ->
    alloc_ok heap (len text + 16) = false ->
    encrypt_path dm heap vendor key nonce aad text variant_name tr
      (NULL PyExc_MemoryError "",
       tr ++ [EvAllocFailed (len text + 16); EvReleaseBuffers])
| EncFault v :
    len key = 16 -> 16 <= len nonce ->
    resolve_variant vendor variant_name
                    (Z.of_nat (String.length variant_name)) = Some v ->
    len text <= PY_SSIZE_T_MAX dm - 16 ->
    alloc_ok heap (len text + 16) = true ->
    enc_rc (encrypt_call key nonce aad text v) <> 0 ->
    encrypt_path dm heap vendor key nonce aad text variant_name tr
      (NULL PyExc_RuntimeError "Ascon encryption failed",
       tr ++ [EvAlloc (len text + 16);
              EvEncrypt (name v) (len text) (len aad);
              EvDecref; EvReleaseBuffers])
| EncReturns v :
    len key = 16 -> 16 <= len nonce ->
    resolve_variant vendor variant_name
                    (Z.of_nat (String.length variant_name)) = Some v ->
    len text <= PY_SSIZE_T_MAX dm - 16 ->
    alloc_ok heap (len text + 16) = true ->
    enc_rc (encrypt_call key nonce aad text v) = 0 ->
    encrypt_path dm heap vendor key nonce aad text variant_name tr
      (PyBytes (encrypt_output heap key nonce aad text v),
       tr ++ [EvAlloc (len text + 16);
              EvEncrypt (name v) (len text) (len aad);
              EvReleaseBuffers]).

(** The paths of [native_decrypt]. *)
Inductive decrypt_path (heap : allocator) (vendor : ascon_c)
          (key nonce aad text : Py_buffer) (variant_name : string)
          (tr : trace) : PyObject * trace -> Prop :=
| DecKey :
    len key <> 16 ->
    decrypt_path heap vendor key nonce aad text variant_name tr
      (NULL PyExc_ValueError "key must be 16 bytes", tr ++ [EvReleaseBuffers])
| DecNonce :
    len key = 16 -> len nonce < 16 ->
    decrypt_path heap vendor key nonce aad text variant_name tr
      (NULL PyExc_ValueError "nonce must be at least 16 bytes",
       tr ++ [EvReleaseBuffers])
| DecShort :
    len key = 16 -> 16 <= len nonce -> len text < 16 ->
    decrypt_path heap vendor key nonce aad text variant_name tr
      (NULL PyExc_ValueError "ciphertext too short", tr ++ [EvReleaseBuffers])
| DecVariant :
    len key = 16 -> 16 <= len nonce -> 16 <= len text ->
    resolve_variant vendor variant_name
                    (Z.of_nat (String.length variant_name)) = None ->
    decrypt_path heap vendor key nonce aad text variant_name tr
      (NULL PyExc_ValueError "unknown Ascon variant", tr ++ [EvReleaseBuffers])
| DecNoMemory v :
    len key = 16 -> 16 <= len nonce -> 16 <= len text ->
    resolve_variant vendor variant_name
                    (Z.of_nat (String.length variant_name)) = Some v ->
    alloc_ok heap (len text - 16) = false ->
    decrypt_path heap vendor key nonce aad text variant_name tr
      (NULL PyExc_MemoryError "",
       tr ++ [EvAllocFailed (len text - 16); EvReleaseBuffers])
| DecRefused v :
    len key = 16 -> 16 <= len nonce -> 16 <= len text ->
    resolve_variant vendor variant_name
                    (Z.of_nat (String.length variant_name)) = Some v ->
    alloc_ok heap (len text - 16) = true ->
    dec_rc (decrypt_call key nonce aad text v) <> 0 ->
    decrypt_path heap vendor key nonce aad text variant_name tr
      (Py_None,
       tr ++ [EvAlloc (len text - 16);
              EvDecrypt (name v) (len text - 16) (len aad);
              EvDecref; EvReleaseBuffers])
| DecReturns v :
    len key = 16 -> 16 <= len nonce -> 16 <= len text ->
    resolve_variant vendor variant_name
                    (Z.of_nat (String.length variant_name)) = Some v ->
    alloc_ok heap (len text - 16) = true ->
    dec_rc (decrypt_call key nonce aad text v) = 0 ->
    decrypt_path heap vendor key nonce aad text variant_name tr
      (PyBytes (decrypt_output heap key nonce aad text v),
       tr ++ [EvAlloc (len text - 16);
              EvDecrypt (name v) (len text - 16) (len aad);
              EvReleaseBuffers]).

(** A view of the first [n] bytes of a larger object, as a slice of a
    [memoryview] gives. *)
Definition view_of_prefix (n : Z) (b : list byte) : Py_buffer :=
  {| buf := ptr_of b; len := n |}.

(** ** A primitive that stores nothing *)

(** A decrypt entry point that reports success without storing any
    byte through its output pointer. *)
Definition silent_decrypt : decrypt_fn_t :=
  fun t c clen ad adlen npub k => {| dec_rc := 0; dec_m := [] |}.

(** The pad instance with the [ascon128a] decrypt entry point replaced by
    the silent one. *)
Definition silent_vendor : ascon_c :=
  {| ascon128_ascon_aead_encrypt := Pad.encrypt x08;
     ascon128_ascon_aead_decrypt := Pad.decrypt x08;
     ascon128a_ascon_aead_encrypt := Pad.encrypt x10;
     ascon128a_ascon_aead_decrypt := silent_decrypt |}.

(** * Properties *)

(** ** Pointers, views and stores *)

Lemma length_bytes_of (p : ptr) (n : Z) : length (bytes_of p n) = Z.to_nat n.
Proof. unfold bytes_of. now rewrite length_map, length_seqZ. Qed.

Lemma elem_of_seqZ_0 (n i : Z) : In i (seqZ 0 n) -> 0 <= i < n.
Proof.
  intros Hin. apply list_elem_of_In, list_elem_of_lookup in Hin.
  destruct Hin as [j Hj]. apply lookup_seqZ in Hj as [-> Hlt]. lia.
Qed.

Lemma map_seqZ_ext {A} (f g : Z -> A) (n : Z) :
  (forall i, 0 <= i < n -> f i = g i) -> map f (seqZ 0 n) = map g (seqZ 0 n).
Proof. intros Hfg. apply map_ext_in. intros i Hi. now apply Hfg, elem_of_seqZ_0. Qed.

Lemma bytes_of_agree (n : Z) (p q : ptr) :
  agree n p q -> bytes_of p n = bytes_of q n.
Proof. intros Hpq. now apply map_seqZ_ext. Qed.

Lemma agree_refl (n : Z) (p : ptr) : agree n p p.
Proof. now intros i _. Qed.

Lemma nth_map_seqZ {A} (f : Z -> A) (n i : Z) (d : A) :
  0 <= i < n -> nth (Z.to_nat i) (map f (seqZ 0 n)) d = f i.
Proof.
  intros Hi. apply nth_lookup_Some.
  rewrite list_lookup_fmap, lookup_seqZ_lt by lia. simpl.
  now replace (0 + Z.of_nat (Z.to_nat i)) with i by lia.
Qed.

Lemma ptr_of_map_seqZ (f : Z -> byte) (n i : Z) :
  0 <= i < n -> ptr_of (map f (seqZ 0 n)) i = f i.
Proof.
  intros Hi. unfold ptr_of. destruct (Z.ltb_spec i 0); [lia|].
  now apply nth_map_seqZ.
Qed.

Lemma ptr_of_app_l (b1 b2 : list byte) :
  agree (Z.of_nat (length b1)) (ptr_of (b1 ++ b2)) (ptr_of b1).
Proof.
  intros i Hi. unfold ptr_of. destruct (Z.ltb_spec i 0); [lia|].
  apply app_nth1. lia.
Qed.

Lemma ptr_of_app_r (b1 b2 : list byte) :
  agree (Z.of_nat (length b2))
        (ptr_add (ptr_of (b1 ++ b2)) (Z.of_nat (length b1))) (ptr_of b2).
Proof.
  intros i Hi. unfold ptr_add, ptr_of.
  destruct (Z.ltb_spec (Z.of_nat (length b1) + i) 0); [lia|].
  destruct (Z.ltb_spec i 0); [lia|].
  rewrite app_nth2 by lia. f_equal. lia.
Qed.

(** The bytes of a [bytes] object read back through its own view. *)
Lemma bytes_of_view_of_bytes (b : list byte) :
  bytes_of_view (view_of_bytes b) = b.
Proof.
  unfold bytes_of_view, view_of_bytes, bytes_of; simpl.
  apply list_eq. intros j. rewrite list_lookup_fmap.
  destruct (decide (j < length b)%nat) as [Hlt|Hge].
  - rewrite lookup_seqZ_lt by lia. simpl. unfold ptr_of.
    destruct (Z.ltb_spec (0 + Z.of_nat j) 0); [lia|].
    replace (Z.to_nat (0 + Z.of_nat j)) with j by lia.
    destruct (lookup_lt_is_Some_2 b j Hlt) as [x Hx].
    rewrite Hx. f_equal. now apply nth_lookup_Some.
  - rewrite lookup_seqZ_ge by lia. simpl. symmetry. apply lookup_ge_None. lia.
Qed.

Lemma length_store (out : list byte) (off : Z) (data : list byte) :
  length (store out off data) = length out.
Proof. apply length_inserts. Qed.

(** A body stored at the start and a tag stored right behind it fill a
    buffer of exactly their joint size. *)
Lemma store_body_tag (out body tag : list byte) :
  length out = (length body + length tag)%nat ->
  store (store out 0 body) (Z.of_nat (length body)) tag = body ++ tag.
Proof.
  intros Hlen. unfold store. rewrite Nat2Z.id. change (Z.to_nat 0) with 0%nat.
  rewrite <- (take_drop (length body) out).
  rewrite (list_inserts_0_r body (take (length body) out))
    by (rewrite length_take; lia).
  replace (length body) with (length body + 0)%nat at 1 by lia.
  rewrite list_inserts_app_r. f_equal.
  rewrite <- (app_nil_r (drop _ out)).
  rewrite list_inserts_0_r by (rewrite length_drop; lia).
  apply app_nil_r.
Qed.

(** A store that covers the whole buffer leaves nothing of it behind. *)
Lemma store_whole (out data : list byte) :
  length out = length data -> store out 0 data = data.
Proof.
  intros Hlen. unfold store. change (Z.to_nat 0) with 0%nat.
  rewrite <- (app_nil_r out).
  rewrite list_inserts_0_r by lia. apply app_nil_r.
Qed.

(** ** [memcmp] and the variant table *)

Lemma N_of_ascii_inj (a b : ascii) : N_of_ascii a = N_of_ascii b -> a = b.
Proof.
  intros Hab. rewrite <- (ascii_N_embedding a), <- (ascii_N_embedding b).
  now rewrite Hab.
Qed.

Lemma memcmp_refl (s : string) (n : nat) : memcmp s s n = 0.
Proof.
  revert s. induction n as [|n IH]; intros s; simpl; [reflexivity|].
  now rewrite Ascii.eqb_refl.
Qed.

(** On two strings of [n] bytes, [memcmp] is zero exactly when they are the
    same string. *)
Lemma memcmp_zero_iff (n : nat) (s1 s2 : string) :
  String.length s1 = n -> String.length s2 = n ->
  memcmp s1 s2 n = 0 <-> s1 = s2.
Proof.
  revert s1 s2. induction n as [|n IH]; intros s1 s2 H1 H2.
  - destruct s1, s2; simpl in *; try discriminate. tauto.
  - destruct s1 as [|a r1], s2 as [|b r2]; simpl in *; try discriminate.
    destruct (Ascii.eqb_spec a b) as [->|Hne].
    + rewrite IH by lia. split; [now intros ->|congruence].
    + split; [|congruence]. intros Hz. exfalso. apply Hne, N_of_ascii_inj. lia.
Qed.

(** One iteration of the loop accepts the candidate exactly when it is the
    name. *)
Lemma candidate_accepts (candidate name_ : string) :
  (negb (Z.of_nat (strlen candidate) =? Z.of_nat (String.length name_)) = false
   /\ (memcmp candidate name_ (strlen candidate) =? 0) = true)
  <-> candidate = name_.
Proof.
  unfold strlen. split.
  - intros [Hlen Hcmp]. apply negb_false_iff, Z.eqb_eq in Hlen.
    apply Z.eqb_eq in Hcmp. apply (memcmp_zero_iff (String.length candidate)); lia.
  - intros ->. rewrite Z.eqb_refl, memcmp_refl. now split.
Qed.

Lemma resolve_variant_loop_In (vs : list ascon_variant)
      (name_ : string) (v : ascon_variant) :
  resolve_variant_loop vs name_ (Z.of_nat (String.length name_)) = Some v ->
  In v vs /\ name v = name_.
Proof.
  induction vs as [|entry rest IH]; simpl; [discriminate|].
  destruct (negb _) eqn:Hlen; [intros H; destruct (IH H); auto|].
  destruct (_ =? 0) eqn:Hcmp; [|intros H; destruct (IH H); auto].
  intros [= <-]. split; [now left|]. now apply candidate_accepts.
Qed.

Lemma resolve_variant_loop_None (vs : list ascon_variant) (name_ : string) :
  resolve_variant_loop vs name_ (Z.of_nat (String.length name_)) = None <->
  Forall (fun v => name v <> name_) vs.
Proof.
  induction vs as [|entry rest IH]; simpl.
  - split; [constructor|reflexivity].
  - rewrite Forall_cons_iff, <- IH.
    destruct (negb _) eqn:Hlen.
    + split; [intros H; split; [|exact H]|tauto].
      intros Heq. apply candidate_accepts in Heq. destruct Heq. congruence.
    + destruct (_ =? 0) eqn:Hcmp.
      * split; [discriminate|]. intros [Hne _]. exfalso. apply Hne.
        now apply candidate_accepts.
      * split; [intros H; split; [|exact H]|tauto].
        intros Heq. apply candidate_accepts in Heq. destruct Heq. congruence.
Qed.

(** ** The paths through the two entry points *)

Lemma PY_SSIZE_T_MAX_range (dm : data_model) :
  2 ^ 31 - 1 <= PY_SSIZE_T_MAX dm < 2 ^ 64.
Proof. destruct dm; vm_compute; split; congruence. Qed.

Lemma to_uint64_id (dm : data_model) (value : Z) :
  0 <= value <= PY_SSIZE_T_MAX dm -> to_uint64 value = value.
Proof.
  intros Hv. pose proof (PY_SSIZE_T_MAX_range dm).
  unfold to_uint64. apply Z.mod_small. lia.
Qed.

Ltac unfold_c :=
  unfold native_encrypt, native_decrypt, at_done, bind, ensure_exact_length,
    ensure_min_length, convert_length, PyBytes_FromStringAndSize_NULL,
    raise, goto_done, ret, emit,
    ASCON_KEY_BYTES, ASCON_NONCE_BYTES, ASCON_TAG_BYTES.

(** Decide the integer tests of the goal from the hypotheses. *)
Ltac tests :=
  repeat match goal with
         | |- context [ Z.gtb ?a ?b ] => rewrite (Z.gtb_ltb a b)
         | |- context [ Z.eqb ?a ?b ] =>
             destruct (Z.eqb_spec a b); try lia; simpl
         | |- context [ Z.ltb ?a ?b ] =>
             destruct (Z.ltb_spec a b); try lia; simpl
         end.

(** Run a body along the path the hypotheses select: [Hv] tells how the
    variant lookup ends, [Hheap] what the allocator answers. *)
Ltac run_with dm Hv Hheap :=
  unfold_c; rewrite ?Hv, ?Hheap, ?(to_uint64_id dm) by lia; tests;
  rewrite <- ?app_assoc; try reflexivity.

(** Settle a closed side condition at a concrete input by evaluation.  A
    variant lookup is settled by conversion, which leaves the primitives
    of the table entry as they are. *)
Ltac evaluated :=
  first [ reflexivity
        | vm_compute; first [ reflexivity | congruence | split; congruence ] ].

Section Paths.

Variable dm : data_model.
Variable heap : allocator.
Variable vendor : ascon_c.
Variables key nonce aad text : Py_buffer.
Variable variant_name : string.
Variable tr : trace.

Local Notation "'lookup'" :=
  (resolve_variant vendor variant_name
                   (Z.of_nat (String.length variant_name))) (only parsing).

Lemma encrypt_key_rejected :
  len key <> 16 ->
  native_encrypt dm heap vendor key nonce aad text variant_name tr
  = (NULL PyExc_ValueError "key must be 16 bytes", tr ++ [EvReleaseBuffers]).
Proof. intros. run_with dm I I. Qed.

Lemma encrypt_nonce_rejected :
  len key = 16 -> len nonce < 16 ->
  native_encrypt dm heap vendor key nonce aad text variant_name tr
  = (NULL PyExc_ValueError "nonce must be at least 16 bytes",
     tr ++ [EvReleaseBuffers]).
Proof. intros. run_with dm I I. Qed.

Lemma encrypt_variant_rejected :
  len key = 16 -> 16 <= len nonce -> lookup = None ->
  native_encrypt dm heap vendor key nonce aad text variant_name tr
  = (NULL PyExc_ValueError "unknown Ascon variant", tr ++ [EvReleaseBuffers]).
Proof. intros ? ? Hv. run_with dm Hv I. Qed.

Lemma encrypt_negative_aad (v : ascon_variant) :
  len key = 16 -> 16 <= len nonce -> lookup = Some v -> len aad < 0 ->
  native_encrypt dm heap vendor key nonce aad text variant_name tr
  = (NULL PyExc_ValueError "aad length must be non-negative",
     tr ++ [EvReleaseBuffers]).
Proof. intros ? ? Hv ?. run_with dm Hv I. Qed.

Lemma encrypt_negative_plaintext (v : ascon_variant) :
  len key = 16 -> 16 <= len nonce -> lookup = Some v -> 0 <= len aad ->
  len text < 0 ->
  native_encrypt dm heap vendor key nonce aad text variant_name tr
  = (NULL PyExc_ValueError "plaintext length must be non-negative",
     tr ++ [EvReleaseBuffers]).
Proof. intros ? ? Hv ? ?. run_with dm Hv I. Qed.

Lemma encrypt_overflow (v : ascon_variant) :
  len key = 16 -> 16 <= len nonce -> lookup = Some v -> 0 <= len aad ->
  PY_SSIZE_T_MAX dm - 16 < len text ->
  native_encrypt dm heap vendor key nonce aad text variant_name tr
  = (NULL PyExc_OverflowError "ciphertext length exceeds platform limits",
     tr ++ [EvReleaseBuffers]).
Proof.
  intros ? ? Hv ? ?. pose proof (PY_SSIZE_T_MAX_range dm).
  run_with dm Hv I.
Qed.

Lemma encrypt_no_memory (v : ascon_variant) :
  len key = 16 -> 16 <= len nonce -> lookup = Some v -> 0 <= len aad ->
  0 <= len text <= PY_SSIZE_T_MAX dm - 16 ->
  alloc_ok heap (len text + 16) = false ->
  native_encrypt dm heap vendor key nonce aad text variant_name tr
  = (NULL PyExc_MemoryError "",
     tr ++ [EvAllocFailed (len text + 16); EvReleaseBuffers]).
Proof. intros ? ? Hv ? ? Hheap. run_with dm Hv Hheap. Qed.

Lemma encrypt_fault (v : ascon_variant) :
  len key = 16 -> 16 <= len nonce -> lookup = Some v ->
  0 <= len aad <= PY_SSIZE_T_MAX dm ->
  0 <= len text <= PY_SSIZE_T_MAX dm - 16 ->
  alloc_ok heap (len text + 16) = true ->
  enc_rc (encrypt_call key nonce aad text v) <> 0 ->
  native_encrypt dm heap vendor key nonce aad text variant_name tr
  = (NULL PyExc_RuntimeError "Ascon encryption failed",
     tr ++ [EvAlloc (len text + 16);
            EvEncrypt (name v) (len text) (len aad);
            EvDecref; EvReleaseBuffers]).
Proof.
  intros ? ? Hv ? ? Hheap Hrc. pose proof (PY_SSIZE_T_MAX_range dm).
  unfold encrypt_call in Hrc. run_with dm Hv Hheap.
Qed.

Lemma encrypt_returns (v : ascon_variant) :
  len key = 16 -> 16 <= len nonce -> lookup = Some v ->
  0 <= len aad <= PY_SSIZE_T_MAX dm ->
  0 <= len text <= PY_SSIZE_T_MAX dm - 16 ->
  alloc_ok heap (len text + 16) = true ->
  enc_rc (encrypt_call key nonce aad text v) = 0 ->
  native_encrypt dm heap vendor key nonce aad text variant_name tr
  = (PyBytes (encrypt_output heap key nonce aad text v),
     tr ++ [EvAlloc (len text + 16);
            EvEncrypt (name v) (len text) (len aad);
            EvReleaseBuffers]).
Proof.
  intros ? ? Hv ? ? Hheap Hrc. pose proof (PY_SSIZE_T_MAX_range dm).
  unfold encrypt_output. unfold encrypt_call in *.
  run_with dm Hv Hheap.
Qed.

Lemma decrypt_key_rejected :
  len key <> 16 ->
  native_decrypt heap vendor key nonce aad text variant_name tr
  = (NULL PyExc_ValueError "key must be 16 bytes", tr ++ [EvReleaseBuffers]).
Proof. intros. run_with dm I I. Qed.

Lemma decrypt_nonce_rejected :
  len key = 16 -> len nonce < 16 ->
  native_decrypt heap vendor key nonce aad text variant_name tr
  = (NULL PyExc_ValueError "nonce must be at least 16 bytes",
     tr ++ [EvReleaseBuffers]).
Proof. intros. run_with dm I I. Qed.

Lemma decrypt_short_rejected :
  len key = 16 -> 16 <= len nonce -> len text < 16 ->
  native_decrypt heap vendor key nonce aad text variant_name tr
  = (NULL PyExc_ValueError "ciphertext too short", tr ++ [EvReleaseBuffers]).
Proof. intros. run_with dm I I. Qed.

Lemma decrypt_variant_rejected :
  len key = 16 -> 16 <= len nonce -> 16 <= len text -> lookup = None ->
  native_decrypt heap vendor key nonce aad text variant_name tr
  = (NULL PyExc_ValueError "unknown Ascon variant", tr ++ [EvReleaseBuffers]).
Proof. intros ? ? ? Hv. run_with dm Hv I. Qed.

Lemma decrypt_negative_aad (v : ascon_variant) :
  len key = 16 -> 16 <= len nonce -> 16 <= len text -> lookup = Some v ->
  len aad < 0 ->
  native_decrypt heap vendor key nonce aad text variant_name tr
  = (NULL PyExc_ValueError "aad length must be non-negative",
     tr ++ [EvReleaseBuffers]).
Proof. intros ? ? ? Hv ?. run_with dm Hv I. Qed.

Lemma decrypt_no_memory (v : ascon_variant) :
  len key = 16 -> 16 <= len nonce -> 16 <= len text -> lookup = Some v ->
  0 <= len aad ->
  alloc_ok heap (len text - 16) = false ->
  native_decrypt heap vendor key nonce aad text variant_name tr
  = (NULL PyExc_MemoryError "",
     tr ++ [EvAllocFailed (len text - 16); EvReleaseBuffers]).
Proof. intros ? ? ? Hv ? Hheap. run_with dm Hv Hheap. Qed.

Lemma decrypt_refused (v : ascon_variant) :
  len key = 16 -> 16 <= len nonce -> 16 <= len text <= PY_SSIZE_T_MAX dm ->
  lookup = Some v -> 0 <= len aad <= PY_SSIZE_T_MAX dm ->
  alloc_ok heap (len text - 16) = true ->
  dec_rc (decrypt_call key nonce aad text v) <> 0 ->
  native_decrypt heap vendor key nonce aad text variant_name tr
  = (Py_None,
     tr ++ [EvAlloc (len text - 16);
            EvDecrypt (name v) (len text - 16) (len aad);
            EvDecref; EvReleaseBuffers]).
Proof.
  intros ? ? ? Hv ? Hheap Hrc. pose proof (PY_SSIZE_T_MAX_range dm).
  unfold decrypt_call in Hrc. run_with dm Hv Hheap.
Qed.

Lemma decrypt_returns (v : ascon_variant) :
  len key = 16 -> 16 <= len nonce -> 16 <= len text <= PY_SSIZE_T_MAX dm ->
  lookup = Some v -> 0 <= len aad <= PY_SSIZE_T_MAX dm ->
  alloc_ok heap (len text - 16) = true ->
  dec_rc (decrypt_call key nonce aad text v) = 0 ->
  native_decrypt heap vendor key nonce aad text variant_name tr
  = (PyBytes (decrypt_output heap key nonce aad text v),
     tr ++ [EvAlloc (len text - 16);
            EvDecrypt (name v) (len text - 16) (len aad);
            EvReleaseBuffers]).
Proof.
  intros ? ? ? Hv ? Hheap Hrc. pose proof (PY_SSIZE_T_MAX_range dm).
  unfold decrypt_output. unfold decrypt_call in *.
  run_with dm Hv Hheap.
Qed.

End Paths.

(** ** Variant resolution *)

Lemma resolve_variant_In (vendor : ascon_c) (variant_name : string)
      (v : ascon_variant) :
  resolve_variant vendor variant_name (Z.of_nat (String.length variant_name))
  = Some v ->
  In v (kVariants vendor) /\ name v = variant_name.
Proof. apply resolve_variant_loop_In. Qed.

Lemma each_variant_resolved (vendor : ascon_c) (P : ascon_variant -> Prop)
      (variant_name : string) (v : ascon_variant) :
  each_variant vendor P ->
  resolve_variant vendor variant_name (Z.of_nat (String.length variant_name))
  = Some v ->
  P v.
Proof.
  intros Hall Hv. apply resolve_variant_In in Hv as [Hin _].
  unfold each_variant in Hall. rewrite Forall_forall in Hall.
  apply Hall. now apply list_elem_of_In.
Qed.

Lemma resolve_variant_unknown (vendor : ascon_c) (variant_name : string) :
  variant_name <> "Ascon-AEAD128"%string ->
  variant_name <> "Ascon-AEAD128a"%string ->
  resolve_variant vendor variant_name (Z.of_nat (String.length variant_name))
  = None.
Proof.
  intros H1 H2. apply resolve_variant_loop_None.
  repeat constructor; simpl; congruence.
Qed.

(** With an unknown name every path of both entry points ends in a
    [ValueError] before anything is allocated or called. *)
Lemma unknown_variant_is_usage_error (dm : data_model) (heap : allocator)
      (vendor : ascon_c) (key nonce aad text : Py_buffer)
      (variant_name : string) (tr : trace) :
  resolve_variant vendor variant_name (Z.of_nat (String.length variant_name))
  = None ->
  (exists msg,
      native_encrypt dm heap vendor key nonce aad text variant_name tr
      = (NULL PyExc_ValueError msg, tr ++ [EvReleaseBuffers])) /\
  (exists msg,
      native_decrypt heap vendor key nonce aad text variant_name tr
      = (NULL PyExc_ValueError msg, tr ++ [EvReleaseBuffers])).
Proof.
  intros Hv.
  destruct (decide (len key = 16)) as [Hk|Hk].
  2: { split; eexists; [apply encrypt_key_rejected|apply decrypt_key_rejected];
       assumption. }
  destruct (decide (len nonce < 16)) as [Hn|Hn].
  { split; eexists;
      [apply encrypt_nonce_rejected|apply decrypt_nonce_rejected]; assumption. }
  split.
  - eexists. apply encrypt_variant_rejected; [assumption|lia|assumption].
  - destruct (decide (len text < 16)) as [Hc|Hc].
    + eexists. apply decrypt_short_rejected; [assumption|lia|assumption].
    + eexists. apply decrypt_variant_rejected; try assumption; lia.
Qed.

(** C5. Variant resolution succeeds exactly for the strings
    "Ascon-AEAD128" and "Ascon-AEAD128a", each resolving to its own table
    entry; the comparison is by exact length and exact bytes, so a name
    that differs in case, carries whitespace, has a character appended or
    is a proper prefix is not found; and for every name that is not found
    both [native_encrypt] and [native_decrypt] end in a [ValueError]
    having allocated nothing and called no primitive. *)
Theorem resolve_variant_exact (dm : data_model) (heap : allocator)
        (vendor : ascon_c) (variant_name : string) :
  let resolve := fun s => resolve_variant vendor s (Z.of_nat (String.length s)) in
  (variant_name = "Ascon-AEAD128"%string ->
   resolve variant_name = nth_error (kVariants vendor) 0) /\
  (variant_name = "Ascon-AEAD128a"%string ->
   resolve variant_name = nth_error (kVariants vendor) 1) /\
  (forall v, resolve variant_name = Some v ->
             name v = variant_name /\
             (variant_name = "Ascon-AEAD128"%string \/
              variant_name = "Ascon-AEAD128a"%string)) /\
  (variant_name <> "Ascon-AEAD128"%string ->
   variant_name <> "Ascon-AEAD128a"%string ->
   resolve variant_name = None) /\
  (resolve variant_name = None ->
   forall key nonce aad text tr,
     (exists msg,
         native_encrypt dm heap vendor key nonce aad text variant_name tr
         = (NULL PyExc_ValueError msg, tr ++ [EvReleaseBuffers])) /\
     (exists msg,
         native_decrypt heap vendor key nonce aad text variant_name tr
         = (NULL PyExc_ValueError msg, tr ++ [EvReleaseBuffers]))) /\
  resolve "ascon-aead128"%string = None /\
  resolve "ASCON-AEAD128A"%string = None /\
  resolve " Ascon-AEAD128"%string = None /\
  resolve "Ascon-AEAD128 "%string = None /\
  resolve "Ascon-AEAD128b"%string = None /\
  resolve "Ascon-AEAD12"%string = None /\
  resolve ""%string = None.
Proof.
  cbv zeta. repeat split; try reflexivity.
  - now intros ->.
  - now intros ->.
  - now apply resolve_variant_In in H.
  - apply resolve_variant_In in H as [Hin <-].
    destruct Hin as [<-|[<-|[]]]; simpl; auto.
  - apply resolve_variant_unknown.
  - now apply unknown_variant_is_usage_error.
  - now apply unknown_variant_is_usage_error.
Qed.

(** The theorem at work: the two catalogued names, and an unknown name
    given to both entry points. *)
Lemma resolve_variant_exact_witness :
  resolve_variant Pad.vendor "Ascon-AEAD128" 13
  = nth_error (kVariants Pad.vendor) 0 /\
  resolve_variant Pad.vendor "Ascon-AEAD128a" 14
  = nth_error (kVariants Pad.vendor) 1 /\
  (exists msg,
      native_encrypt LP64 plenty Pad.vendor
        (view_of_string "0123456789abcdef") (view_of_string "0123456789abcdef")
        (view_of_string "") (view_of_string "hello") "Ascon-AEAD128b" []
      = (NULL PyExc_ValueError msg, [EvReleaseBuffers])) /\
  (exists msg,
      native_decrypt plenty Pad.vendor
        (view_of_string "0123456789abcdef") (view_of_string "0123456789abcdef")
        (view_of_string "") (view_of_string "0123456789abcdef")
        "Ascon-AEAD128b" []
      = (NULL PyExc_ValueError msg, [EvReleaseBuffers])).
Proof.
  pose proof (resolve_variant_exact LP64 plenty Pad.vendor "Ascon-AEAD128")
    as (H0 & _).
  pose proof (resolve_variant_exact LP64 plenty Pad.vendor "Ascon-AEAD128a")
    as (_ & H1 & _).
  pose proof (resolve_variant_exact LP64 plenty Pad.vendor "Ascon-AEAD128b")
    as (_ & _ & _ & Hnone & Herr & _).
  split; [exact (H0 eq_refl)|]. split; [exact (H1 eq_refl)|].
  assert (Hb : resolve_variant Pad.vendor "Ascon-AEAD128b" 14 = None)
    by (apply Hnone; discriminate).
  split; apply (Herr Hb).
Defined.

(** ** Length validation *)

(** C4. In every call of [native_encrypt] or [native_decrypt], a key that
    is not exactly 16 bytes long, a nonce shorter than 16 bytes and, for
    decrypt, a ciphertext shorter than 16 bytes are each rejected with a
    [ValueError]; the log of the call then holds nothing but the release
    of the argument buffers: the primitive was not invoked and no output
    buffer was allocated. *)
Theorem length_checks_reject_early (dm : data_model) (heap : allocator)
        (vendor : ascon_c) (key nonce aad text : Py_buffer)
        (variant_name : string) (tr : trace) :
  let key_msg := "key must be 16 bytes"%string in
  let nonce_msg :=
    if len key =? 16 then "nonce must be at least 16 bytes"%string
    else key_msg in
  let short_msg :=
    if (len key =? 16) && (16 <=? len nonce) then "ciphertext too short"%string
    else nonce_msg in
  (len key <> 16 ->
   native_encrypt dm heap vendor key nonce aad text variant_name tr
   = (NULL PyExc_ValueError key_msg, tr ++ [EvReleaseBuffers]) /\
   native_decrypt heap vendor key nonce aad text variant_name tr
   = (NULL PyExc_ValueError key_msg, tr ++ [EvReleaseBuffers])) /\
  (len nonce < 16 ->
   native_encrypt dm heap vendor key nonce aad text variant_name tr
   = (NULL PyExc_ValueError nonce_msg, tr ++ [EvReleaseBuffers]) /\
   native_decrypt heap vendor key nonce aad text variant_name tr
   = (NULL PyExc_ValueError nonce_msg, tr ++ [EvReleaseBuffers])) /\
  (len text < 16 ->
   native_decrypt heap vendor key nonce aad text variant_name tr
   = (NULL PyExc_ValueError short_msg, tr ++ [EvReleaseBuffers])).
Proof.
  cbv zeta. split; [|split].
  - intros Hk. split;
      [now apply encrypt_key_rejected|now apply decrypt_key_rejected].
  - intros Hn. destruct (Z.eqb_spec (len key) 16) as [Hk|Hk].
    + split; [now apply encrypt_nonce_rejected|now apply decrypt_nonce_rejected].
    + split; [now apply encrypt_key_rejected|now apply decrypt_key_rejected].
  - intros Hc. destruct (Z.eqb_spec (len key) 16) as [Hk|Hk]; simpl.
    + destruct (Z.leb_spec 16 (len nonce)) as [Hn|Hn].
      * now apply decrypt_short_rejected.
      * now apply decrypt_nonce_rejected.
    + now apply decrypt_key_rejected.
Qed.

(** The rejection cases of the specification: keys of 15 and of 17 bytes,
    a nonce of 8 bytes, a ciphertext of 10 bytes. *)
Lemma length_checks_reject_early_witness :
  let good := view_of_string "0123456789abcdef" in
  let reject msg := (NULL PyExc_ValueError msg, [EvReleaseBuffers]) in
  (native_encrypt LP64 plenty Pad.vendor (view_of_string "0123456789abcde")
     good (view_of_string "") (view_of_string "hello") "Ascon-AEAD128" []
   = reject "key must be 16 bytes"%string /\
   native_decrypt plenty Pad.vendor (view_of_string "0123456789abcde")
     good (view_of_string "") (view_of_string "hello") "Ascon-AEAD128" []
   = reject "key must be 16 bytes"%string) /\
  (native_encrypt LP64 plenty Pad.vendor (view_of_string "0123456789abcdefg")
     good (view_of_string "") good "Ascon-AEAD128" []
   = reject "key must be 16 bytes"%string /\
   native_decrypt plenty Pad.vendor (view_of_string "0123456789abcdefg")
     good (view_of_string "") good "Ascon-AEAD128" []
   = reject "key must be 16 bytes"%string) /\
  (native_encrypt LP64 plenty Pad.vendor good (view_of_string "01234567")
     (view_of_string "") good "Ascon-AEAD128a" []
   = reject "nonce must be at least 16 bytes"%string /\
   native_decrypt plenty Pad.vendor good (view_of_string "01234567")
     (view_of_string "") good "Ascon-AEAD128a" []
   = reject "nonce must be at least 16 bytes"%string) /\
  native_decrypt plenty Pad.vendor good good (view_of_string "")
     (view_of_string "0123456789") "Ascon-AEAD128" []
  = reject "ciphertext too short"%string.
Proof.
  cbv zeta.
  pose proof (length_checks_reject_early LP64 plenty Pad.vendor
                (view_of_string "0123456789abcde")
                (view_of_string "0123456789abcdef") (view_of_string "")
                (view_of_string "hello") "Ascon-AEAD128" []) as (H15 & _).
  pose proof (length_checks_reject_early LP64 plenty Pad.vendor
                (view_of_string "0123456789abcdefg")
                (view_of_string "0123456789abcdef") (view_of_string "")
                (view_of_string "0123456789abcdef") "Ascon-AEAD128" [])
    as (H17 & _).
  pose proof (length_checks_reject_early LP64 plenty Pad.vendor
                (view_of_string "0123456789abcdef")
                (view_of_string "01234567") (view_of_string "")
                (view_of_string "0123456789abcdef") "Ascon-AEAD128a" [])
    as (_ & H8 & _).
  pose proof (length_checks_reject_early LP64 plenty Pad.vendor
                (view_of_string "0123456789abcdef")
                (view_of_string "0123456789abcdef") (view_of_string "")
                (view_of_string "0123456789") "Ascon-AEAD128" [])
    as (_ & _ & H10).
  split; [apply H15; vm_compute; lia|].
  split; [apply H17; vm_compute; lia|].
  split; [apply H8; vm_compute; reflexivity|].
  apply H10. vm_compute. reflexivity.
Defined.

(** ** The order of the checks in [native_encrypt] *)

(** C6, as stated, fails: the overflow test is the last of the checks, so a
    call with an oversized plaintext (here [2^31 - 16] bytes on a 32-bit
    build) and a 15-byte key is rejected for its key, with a
    [ValueError]. *)
Lemma overflow_behind_key_check :
  let plaintext := zeros (PY_SSIZE_T_MAX ILP32 - 15) in
  PY_SSIZE_T_MAX ILP32 - 16 < len plaintext /\
  parsed ILP32 plaintext /\
  native_encrypt ILP32 plenty Pad.vendor (view_of_string "0123456789abcde")
    (view_of_string "0123456789abcdef") (view_of_string "") plaintext
    "Ascon-AEAD128" []
  = (NULL PyExc_ValueError "key must be 16 bytes", [EvReleaseBuffers]).
Proof. vm_compute. repeat split; congruence. Qed.

(** C6, amended. For every encrypt call whose key is 16 bytes long, whose
    nonce is at least 16 bytes long, whose variant name resolves and whose
    aad length is non-negative, a plaintext longer than
    [PY_SSIZE_T_MAX - 16] is rejected with an [OverflowError], which is
    not the [ValueError] of the length mismatches, and the call has
    allocated nothing when it returns. *)
Theorem encrypt_overflow_error (dm : data_model) (heap : allocator)
        (vendor : ascon_c) (key nonce aad plaintext : Py_buffer)
        (variant_name : string) (tr : trace) (v : ascon_variant) :
  len key = 16 -> 16 <= len nonce ->
  resolve_variant vendor variant_name (Z.of_nat (String.length variant_name))
  = Some v ->
  0 <= len aad ->
  PY_SSIZE_T_MAX dm - 16 < len plaintext ->
  native_encrypt dm heap vendor key nonce aad plaintext variant_name tr
  = (NULL PyExc_OverflowError "ciphertext length exceeds platform limits",
     tr ++ [EvReleaseBuffers])
  /\ PyExc_OverflowError <> PyExc_ValueError.
Proof.
  intros Hk Hn Hv Ha Ht. split; [|discriminate].
  now apply encrypt_overflow with (v := v).
Qed.

Lemma encrypt_overflow_error_witness :
  native_encrypt ILP32 plenty Pad.vendor (view_of_string "0123456789abcdef")
    (view_of_string "0123456789abcdef") (view_of_string "hdr")
    (zeros (2 ^ 31 - 16)) "Ascon-AEAD128a" []
  = (NULL PyExc_OverflowError "ciphertext length exceeds platform limits",
     [EvReleaseBuffers]).
Proof.
  edestruct (encrypt_overflow_error ILP32 plenty Pad.vendor
               (view_of_string "0123456789abcdef")
               (view_of_string "0123456789abcdef") (view_of_string "hdr")
               (zeros (2 ^ 31 - 16)) "Ascon-AEAD128a" []) as [Hraise _];
    [..|exact Hraise]; evaluated.
Defined.

(** C7, as stated, fails: the variant name is resolved before the length
    conversions and the overflow test, so a call with an oversized
    plaintext and an unknown variant name gets the unknown-variant error. *)
Lemma variant_resolved_before_overflow_check :
  let plaintext := zeros (PY_SSIZE_T_MAX ILP32 - 15) in
  PY_SSIZE_T_MAX ILP32 - 16 < len plaintext /\
  parsed ILP32 plaintext /\
  resolve_variant Pad.vendor "Ascon-AEAD128b" 14 = None /\
  native_encrypt ILP32 plenty Pad.vendor (view_of_string "0123456789abcdef")
    (view_of_string "0123456789abcdef") (view_of_string "") plaintext
    "Ascon-AEAD128b" []
  = (NULL PyExc_ValueError "unknown Ascon variant", [EvReleaseBuffers]).
Proof. vm_compute. repeat split; congruence. Qed.

(** C7, amended. In every encrypt call the key-length and nonce-length
    checks run before the variant name is resolved, and the variant name
    is resolved before the length conversions and the overflow test:
    - a key that is not 16 bytes long is rejected for its length whatever
      the variant name;
    - with a good key, a short nonce is rejected for its length whatever
      the variant name;
    - with a good key and nonce, an unknown variant name is rejected as
      such whatever the lengths of aad and plaintext, an oversized
      plaintext included;
    - only when the name resolves are the conversions and the overflow
      test reached.
    Each rejection happens before anything is allocated or called. *)
Theorem encrypt_check_order (dm : data_model) (heap : allocator)
        (vendor : ascon_c) (key nonce aad plaintext : Py_buffer)
        (variant_name : string) (tr : trace) :
  let lookup :=
    resolve_variant vendor variant_name
                    (Z.of_nat (String.length variant_name)) in
  let result :=
    native_encrypt dm heap vendor key nonce aad plaintext variant_name tr in
  let reject exc msg := (NULL exc msg, tr ++ [EvReleaseBuffers]) in
  (len key <> 16 ->
   result = reject PyExc_ValueError "key must be 16 bytes"%string) /\
  (len key = 16 -> len nonce < 16 ->
   result = reject PyExc_ValueError "nonce must be at least 16 bytes"%string) /\
  (len key = 16 -> 16 <= len nonce -> lookup = None ->
   result = reject PyExc_ValueError "unknown Ascon variant"%string) /\
  (len key = 16 -> 16 <= len nonce -> lookup <> None -> len aad < 0 ->
   result = reject PyExc_ValueError "aad length must be non-negative"%string) /\
  (len key = 16 -> 16 <= len nonce -> lookup <> None -> 0 <= len aad ->
   len plaintext < 0 ->
   result
   = reject PyExc_ValueError "plaintext length must be non-negative"%string) /\
  (len key = 16 -> 16 <= len nonce -> lookup <> None -> 0 <= len aad ->
   PY_SSIZE_T_MAX dm - 16 < len plaintext ->
   result = reject PyExc_OverflowError
                   "ciphertext length exceeds platform limits"%string).
Proof.
  cbv zeta. repeat apply conj.
  - apply encrypt_key_rejected.
  - apply encrypt_nonce_rejected.
  - apply encrypt_variant_rejected.
  - intros Hk Hn Hv Ha.
    destruct (resolve_variant _ _ _) as [v|] eqn:E; [|congruence].
    now apply encrypt_negative_aad with (v := v).
  - intros Hk Hn Hv Ha Hp.
    destruct (resolve_variant _ _ _) as [v|] eqn:E; [|congruence].
    now apply encrypt_negative_plaintext with (v := v).
  - intros Hk Hn Hv Ha Hp.
    destruct (resolve_variant _ _ _) as [v|] eqn:E; [|congruence].
    now apply encrypt_overflow with (v := v).
Qed.

Lemma encrypt_check_order_witness :
  let good := view_of_string "0123456789abcdef" in
  let huge := zeros (PY_SSIZE_T_MAX LP64 - 15) in
  native_encrypt LP64 plenty Pad.vendor (view_of_string "0123456789abcde")
    good (view_of_string "") huge "Ascon-AEAD128b" []
  = (NULL PyExc_ValueError "key must be 16 bytes", [EvReleaseBuffers]) /\
  native_encrypt LP64 plenty Pad.vendor good (view_of_string "01234567")
    (view_of_string "") huge "Ascon-AEAD128b" []
  = (NULL PyExc_ValueError "nonce must be at least 16 bytes",
     [EvReleaseBuffers]) /\
  native_encrypt LP64 plenty Pad.vendor good good (view_of_string "") huge
    "Ascon-AEAD128b" []
  = (NULL PyExc_ValueError "unknown Ascon variant", [EvReleaseBuffers]) /\
  native_encrypt LP64 plenty Pad.vendor good good (view_of_string "") huge
    "Ascon-AEAD128" []
  = (NULL PyExc_OverflowError "ciphertext length exceeds platform limits",
     [EvReleaseBuffers]).
Proof.
  cbv zeta.
  pose proof (encrypt_check_order LP64 plenty Pad.vendor
                (view_of_string "0123456789abcde")
                (view_of_string "0123456789abcdef") (view_of_string "")
                (zeros (PY_SSIZE_T_MAX LP64 - 15)) "Ascon-AEAD128b" [])
    as (Hkey & _).
  pose proof (encrypt_check_order LP64 plenty Pad.vendor
                (view_of_string "0123456789abcdef")
                (view_of_string "01234567") (view_of_string "")
                (zeros (PY_SSIZE_T_MAX LP64 - 15)) "Ascon-AEAD128b" [])
    as (_ & Hnonce & _).
  pose proof (encrypt_check_order LP64 plenty Pad.vendor
                (view_of_string "0123456789abcdef")
                (view_of_string "0123456789abcdef") (view_of_string "")
                (zeros (PY_SSIZE_T_MAX LP64 - 15)) "Ascon-AEAD128b" [])
    as (_ & _ & Hname & _).
  pose proof (encrypt_check_order LP64 plenty Pad.vendor
                (view_of_string "0123456789abcdef")
                (view_of_string "0123456789abcdef") (view_of_string "")
                (zeros (PY_SSIZE_T_MAX LP64 - 15)) "Ascon-AEAD128" [])
    as (_ & _ & _ & _ & _ & Hover).
  split; [apply Hkey; evaluated|].
  split; [apply Hnonce; evaluated|].
  split; [apply Hname; evaluated|].
  apply Hover; first [discriminate|evaluated].
Defined.

(** ** The length conversions *)

Lemma last_byte_app (s1 s2 : string) :
  s2 <> EmptyString -> last_byte (s1 ++ s2) = last_byte s2.
Proof.
  intros Hne. induction s1 as [|a s1 IH]; [reflexivity|].
  simpl. rewrite IH. destruct (s1 ++ s2)%string eqn:E; [|reflexivity].
  destruct s1; simpl in E; congruence.
Qed.

Lemma negative_length_error_last_byte (field msg : string) :
  negative_length_error field = NULL PyExc_ValueError msg ->
  last_byte msg = "e"%char.
Proof.
  unfold negative_length_error. intros [= <-].
  now rewrite last_byte_app.
Qed.

Lemma convert_length_negative (value : Z) (field : string) (tr : trace) :
  value < 0 ->
  convert_length value field tr = (Done (negative_length_error field), tr).
Proof. intros. unfold convert_length, negative_length_error, raise, goto_done. now tests. Qed.

Lemma convert_length_id (dm : data_model) (value : Z) (field : string)
      (tr : trace) :
  0 <= value <= PY_SSIZE_T_MAX dm ->
  convert_length value field tr = (Next value, tr).
Proof.
  intros Hv. unfold convert_length, ret. rewrite (to_uint64_id dm) by lia.
  now tests.
Qed.

(** Every outcome of [native_encrypt] on parsed arguments. *)
Lemma encrypt_outcomes (dm : data_model) (heap : allocator) (vendor : ascon_c)
      (key nonce aad text : Py_buffer) (variant_name : string) (tr : trace) :
  parsed dm aad -> parsed dm text ->
  let result :=
    fst (native_encrypt dm heap vendor key nonce aad text variant_name tr) in
  result = NULL PyExc_ValueError "key must be 16 bytes" \/
  result = NULL PyExc_ValueError "nonce must be at least 16 bytes" \/
  result = NULL PyExc_ValueError "unknown Ascon variant" \/
  result = NULL PyExc_OverflowError "ciphertext length exceeds platform limits" \/
  result = NULL PyExc_MemoryError "" \/
  result = NULL PyExc_RuntimeError "Ascon encryption failed" \/
  exists ct, result = PyBytes ct.
Proof.
  intros [Ha Ha'] [Ht Ht']. cbv zeta.
  destruct (decide (len key = 16)) as [Hk|Hk];
    [|rewrite encrypt_key_rejected by assumption; auto].
  destruct (decide (len nonce < 16)) as [Hn|Hn];
    [rewrite encrypt_nonce_rejected by assumption; auto 10|].
  destruct (resolve_variant vendor variant_name
              (Z.of_nat (String.length variant_name))) as [v|] eqn:Hv;
    [|rewrite encrypt_variant_rejected by (assumption || lia); auto 10].
  destruct (decide (PY_SSIZE_T_MAX dm - 16 < len text)) as [Ho|Ho];
    [rewrite (encrypt_overflow dm heap vendor key nonce aad text variant_name
                               tr v) by (assumption || lia); auto 10|].
  destruct (alloc_ok heap (len text + 16)) eqn:Hheap;
    [|rewrite (encrypt_no_memory dm heap vendor key nonce aad text
                                 variant_name tr v)
        by (assumption || lia); auto 10].
  destruct (decide (enc_rc (encrypt_call key nonce aad text v) = 0)) as [Hrc|Hrc].
  - rewrite (encrypt_returns dm heap vendor key nonce aad text variant_name
                             tr v) by (assumption || lia).
    do 6 right. now eexists.
  - rewrite (encrypt_fault dm heap vendor key nonce aad text variant_name
                           tr v) by (assumption || lia).
    auto 10.
Qed.

(** Every outcome of [native_decrypt] on parsed arguments. *)
Lemma decrypt_outcomes (dm : data_model) (heap : allocator) (vendor : ascon_c)
      (key nonce aad text : Py_buffer) (variant_name : string) (tr : trace) :
  parsed dm aad -> parsed dm text ->
  let result :=
    fst (native_decrypt heap vendor key nonce aad text variant_name tr) in
  result = NULL PyExc_ValueError "key must be 16 bytes" \/
  result = NULL PyExc_ValueError "nonce must be at least 16 bytes" \/
  result = NULL PyExc_ValueError "ciphertext too short" \/
  result = NULL PyExc_ValueError "unknown Ascon variant" \/
  result = NULL PyExc_MemoryError "" \/
  result = Py_None \/
  exists pt, result = PyBytes pt.
Proof.
  intros [Ha Ha'] [Ht Ht']. cbv zeta.
  destruct (decide (len key = 16)) as [Hk|Hk];
    [|rewrite decrypt_key_rejected by assumption; auto].
  destruct (decide (len nonce < 16)) as [Hn|Hn];
    [rewrite decrypt_nonce_rejected by assumption; auto 10|].
  destruct (decide (len text < 16)) as [Hc|Hc];
    [rewrite decrypt_short_rejected by (assumption || lia); auto 10|].
  destruct (resolve_variant vendor variant_name
              (Z.of_nat (String.length variant_name))) as [v|] eqn:Hv;
    [|rewrite decrypt_variant_rejected by (assumption || lia); auto 10].
  destruct (alloc_ok heap (len text - 16)) eqn:Hheap;
    [|rewrite (decrypt_no_memory heap vendor key nonce aad text
                                 variant_name tr v)
        by (assumption || lia); auto 10].
  destruct (decide (dec_rc (decrypt_call key nonce aad text v) = 0)) as [Hrc|Hrc].
  - rewrite (decrypt_returns dm heap vendor key nonce aad text variant_name
                             tr v) by (assumption || lia).
    do 6 right. now eexists.
  - rewrite (decrypt_refused dm heap vendor key nonce aad text variant_name
                             tr v) by (assumption || lia).
    auto 10.
Qed.

(** C10. On the lengths the argument parser supplies, the negative-length
    branch of [convert_length] is never taken: the conversions of the aad
    length and of the plaintext length succeed and return the length
    unchanged; so does the conversion of decrypt's body length,
    [ciphertext.len - 16], once the ciphertext has passed the too-short
    check; and neither entry point ever ends in the negative-length
    error, whatever the field name. *)
Theorem convert_length_never_negative (dm : data_model) (heap : allocator)
        (vendor : ascon_c) (key nonce aad text : Py_buffer)
        (variant_name : string) (tr : trace) :
  parsed dm aad -> parsed dm text ->
  convert_length (len aad) "aad" tr = (Next (len aad), tr) /\
  convert_length (len text) "plaintext" tr = (Next (len text), tr) /\
  (~ len text < ASCON_TAG_BYTES ->
   convert_length (len text - ASCON_TAG_BYTES) "ciphertext" tr
   = (Next (len text - ASCON_TAG_BYTES), tr)) /\
  (forall field,
      fst (native_encrypt dm heap vendor key nonce aad text variant_name tr)
      <> negative_length_error field) /\
  (forall field,
      fst (native_decrypt heap vendor key nonce aad text variant_name tr)
      <> negative_length_error field).
Proof.
  intros Ha Ht. pose proof Ha as [Ha0 Ha1]. pose proof Ht as [Ht0 Ht1].
  repeat apply conj.
  - now apply (convert_length_id dm).
  - now apply (convert_length_id dm).
  - unfold ASCON_TAG_BYTES. intros Hc. apply (convert_length_id dm). lia.
  - intros field Heq.
    pose proof (encrypt_outcomes dm heap vendor key nonce aad text
                                 variant_name tr Ha Ht) as Hout.
    cbv zeta in Hout. rewrite Heq in Hout.
    destruct Hout as [H|[H|[H|[H|[H|[H|[ct H]]]]]]]; try discriminate;
      apply negative_length_error_last_byte in H; discriminate.
  - intros field Heq.
    pose proof (decrypt_outcomes dm heap vendor key nonce aad text
                                 variant_name tr Ha Ht) as Hout.
    cbv zeta in Hout. rewrite Heq in Hout.
    destruct Hout as [H|[H|[H|[H|[H|[H|[ct H]]]]]]]; try discriminate;
      apply negative_length_error_last_byte in H; discriminate.
Qed.

Lemma convert_length_never_negative_witness :
  convert_length 3 "aad" [] = (Next 3, []) /\
  convert_length 16 "plaintext" [] = (Next 16, []) /\
  convert_length 0 "ciphertext" [] = (Next 0, []).
Proof.
  pose proof (convert_length_never_negative LP64 plenty Pad.vendor
                (view_of_string "0123456789abcdef")
                (view_of_string "0123456789abcdef") (view_of_string "hdr")
                (view_of_string "0123456789abcdef") "Ascon-AEAD128" [])
    as Hconv.
  destruct Hconv as (Haad & Htext & Hbody & _).
  - vm_compute. split; congruence.
  - vm_compute. split; congruence.
  - split; [exact Haad|]. split; [exact Htext|].
    apply Hbody. vm_compute. congruence.
Defined.

(** ** The outcome of verification *)

(** C3. In a decrypt call whose inputs pass the checks, whose variant name
    resolves and whose output buffer has been allocated: when the
    primitive's decrypt reports a non-zero status, the call returns [None]
    (no exception is set), the only reference to the output buffer has
    been dropped, and what the primitive may have stored in it is not part
    of the result; when the primitive reports zero, the call returns the
    output buffer, [ciphertext.len - 16] bytes long, holding what the
    primitive stored. *)
Theorem decrypt_verification_outcomes (dm : data_model) (heap : allocator)
        (vendor : ascon_c) (key nonce aad ciphertext : Py_buffer)
        (variant_name : string) (tr : trace) (v : ascon_variant) :
  len key = 16 -> 16 <= len nonce ->
  parsed dm ciphertext -> 16 <= len ciphertext -> parsed dm aad ->
  resolve_variant vendor variant_name (Z.of_nat (String.length variant_name))
  = Some v ->
  alloc_ok heap (len ciphertext - 16) = true ->
  let rc := dec_rc (decrypt_call key nonce aad ciphertext v) in
  let stored := dec_m (decrypt_call key nonce aad ciphertext v) in
  let fresh := map (uninitialised heap) (seqZ 0 (len ciphertext - 16)) in
  let called := [EvAlloc (len ciphertext - 16);
                 EvDecrypt (name v) (len ciphertext - 16) (len aad)] in
  (rc <> 0 ->
   native_decrypt heap vendor key nonce aad ciphertext variant_name tr
   = (Py_None, tr ++ called ++ [EvDecref; EvReleaseBuffers])) /\
  (rc = 0 ->
   exists plaintext,
     native_decrypt heap vendor key nonce aad ciphertext variant_name tr
     = (PyBytes plaintext, tr ++ called ++ [EvReleaseBuffers]) /\
     plaintext = store fresh 0 stored /\
     Z.of_nat (length plaintext) = len ciphertext - 16).
Proof.
  intros Hk Hn [Hc0 Hc1] Hc Ha Hv Hheap. cbv zeta. split; intros Hrc.
  - apply (decrypt_refused dm); auto; lia.
  - eexists. split; [apply (decrypt_returns dm); auto; lia|].
    split; [reflexivity|]. unfold decrypt_output.
    rewrite length_store, length_map, length_seqZ. lia.
Qed.

(** C9. A decrypt call with a 16-byte key, a nonce of at least 16 bytes, a
    known variant and a ciphertext of exactly 16 bytes never ends in a
    usage error; once its (empty) output buffer is allocated it invokes
    the primitive with body length 0, and when the primitive reports
    success it returns the empty byte sequence. *)
Theorem decrypt_bare_tag (dm : data_model) (heap : allocator)
        (vendor : ascon_c) (key nonce aad ciphertext : Py_buffer)
        (variant_name : string) (tr : trace) (v : ascon_variant) :
  len key = 16 -> 16 <= len nonce -> len ciphertext = 16 -> parsed dm aad ->
  resolve_variant vendor variant_name (Z.of_nat (String.length variant_name))
  = Some v ->
  let result :=
    native_decrypt heap vendor key nonce aad ciphertext variant_name tr in
  let r := decrypt_fn v (ptr_add (buf ciphertext) 0) (buf ciphertext) 0
                      (buf aad) (len aad) (buf nonce) (buf key) in
  let called := [EvAlloc 0; EvDecrypt (name v) 0 (len aad)] in
  (forall msg, fst result <> NULL PyExc_ValueError msg) /\
  (forall msg, fst result <> NULL PyExc_OverflowError msg) /\
  (alloc_ok heap 0 = true ->
   (dec_rc r = 0 ->
    result = (PyBytes [], tr ++ called ++ [EvReleaseBuffers])) /\
   (dec_rc r <> 0 ->
    result = (Py_None, tr ++ called ++ [EvDecref; EvReleaseBuffers]))).
Proof.
  intros Hk Hn Hc Ha Hv. cbv zeta.
  pose proof (PY_SSIZE_T_MAX_range dm) as Hmax.
  assert (Hcall : decrypt_call key nonce aad ciphertext v
                  = decrypt_fn v (ptr_add (buf ciphertext) 0) (buf ciphertext)
                               0 (buf aad) (len aad) (buf nonce) (buf key))
    by (unfold decrypt_call; now rewrite Hc).
  assert (Hout : decrypt_output heap key nonce aad ciphertext v = [])
    by (unfold decrypt_output, store; rewrite Hc; simpl;
        now rewrite list_inserts_nil).
  destruct Ha as [Ha0 Ha1].
  destruct (alloc_ok heap 0) eqn:Hheap.
  - rewrite <- Hcall.
    destruct (decide (dec_rc (decrypt_call key nonce aad ciphertext v) = 0))
      as [Hrc|Hrc].
    + rewrite (decrypt_returns dm heap vendor key nonce aad ciphertext
                               variant_name tr v)
        by (rewrite ?Hc; auto; lia).
      rewrite Hc, Hout. simpl.
      split; [discriminate|]. split; [discriminate|].
      intros _. split; [reflexivity|contradiction].
    + rewrite (decrypt_refused dm heap vendor key nonce aad ciphertext
                               variant_name tr v)
        by (rewrite ?Hc; auto; lia).
      rewrite Hc. simpl.
      split; [discriminate|]. split; [discriminate|].
      intros _. split; [contradiction|reflexivity].
  - rewrite (decrypt_no_memory heap vendor key nonce aad ciphertext
                               variant_name tr v)
      by (rewrite ?Hc; auto; lia).
    simpl. split; [discriminate|]. split; discriminate.
Qed.

Lemma decrypt_verification_outcomes_witness :
  native_decrypt plenty Pad.vendor sample_key sample_nonce sample_aad
                 (view_of_bytes sample_ciphertext) "Ascon-AEAD128" []
  = (PyBytes (list_byte_of_string "hello"),
     [EvAlloc 5; EvDecrypt "Ascon-AEAD128" 5 3; EvReleaseBuffers]) /\
  native_decrypt plenty Pad.vendor sample_key sample_nonce sample_aad
                 (view_of_bytes (x00 :: tail sample_ciphertext))
                 "Ascon-AEAD128" []
  = (Py_None,
     [EvAlloc 5; EvDecrypt "Ascon-AEAD128" 5 3; EvDecref; EvReleaseBuffers]).
Proof.
  split.
  - edestruct (decrypt_verification_outcomes LP64 plenty Pad.vendor sample_key
                 sample_nonce sample_aad (view_of_bytes sample_ciphertext)
                 "Ascon-AEAD128" []) as [_ Hok]; [evaluated..|].
    destruct Hok as (pt & Heq & Hpt & _); [evaluated|].
    rewrite Heq, Hpt. evaluated.
  - edestruct (decrypt_verification_outcomes LP64 plenty Pad.vendor sample_key
                 sample_nonce sample_aad
                 (view_of_bytes (x00 :: tail sample_ciphertext))
                 "Ascon-AEAD128" []) as [Hbad _]; [evaluated..|].
    rewrite Hbad; evaluated.
Defined.

Lemma decrypt_bare_tag_witness :
  let tag := match native_encrypt LP64 plenty Pad.vendor sample_key
                     sample_nonce sample_aad (view_of_string "")
                     "Ascon-AEAD128a" [] with
             | (PyBytes ct, _) => ct
             | _ => []
             end in
  length tag = 16%nat /\
  native_decrypt plenty Pad.vendor sample_key sample_nonce sample_aad
                 (view_of_bytes tag) "Ascon-AEAD128a" []
  = (PyBytes [],
     [EvAlloc 0; EvDecrypt "Ascon-AEAD128a" 0 3; EvReleaseBuffers]) /\
  forall msg,
    fst (native_decrypt exhausted Pad.vendor sample_key sample_nonce sample_aad
                        (view_of_bytes tag) "Ascon-AEAD128a" [])
    <> NULL PyExc_ValueError msg.
Proof.
  cbv zeta. split; [evaluated|]. split.
  - edestruct (decrypt_bare_tag LP64 plenty Pad.vendor sample_key sample_nonce
                 sample_aad
                 (view_of_bytes
                    match native_encrypt LP64 plenty Pad.vendor sample_key
                            sample_nonce sample_aad (view_of_string "")
                            "Ascon-AEAD128a" [] with
                    | (PyBytes ct, _) => ct
                    | _ => []
                    end)
                 "Ascon-AEAD128a" []) as (_ & _ & Hcalled); [evaluated..|].
    destruct Hcalled as [Hok _]; [evaluated|].
    rewrite Hok; evaluated.
  - edestruct (decrypt_bare_tag LP64 exhausted Pad.vendor sample_key
                 sample_nonce sample_aad
                 (view_of_bytes
                    match native_encrypt LP64 plenty Pad.vendor sample_key
                            sample_nonce sample_aad (view_of_string "")
                            "Ascon-AEAD128a" [] with
                    | (PyBytes ct, _) => ct
                    | _ => []
                    end)
                 "Ascon-AEAD128a" []) as (Hnot & _); [evaluated..|].
    exact Hnot.
Defined.

(** ** The returned ciphertext *)

(** A successful [native_encrypt] has taken the one path that returns the
    output buffer. *)
Lemma encrypt_success_inv (dm : data_model) (heap : allocator)
      (vendor : ascon_c) (key nonce aad text : Py_buffer)
      (variant_name : string) (tr tr' : trace) (ct : list byte) :
  parsed dm aad ->
  native_encrypt dm heap vendor key nonce aad text variant_name tr
  = (PyBytes ct, tr') ->
  exists v,
    resolve_variant vendor variant_name (Z.of_nat (String.length variant_name))
    = Some v /\
    len key = 16 /\ 16 <= len nonce /\
    0 <= len text <= PY_SSIZE_T_MAX dm - 16 /\
    enc_rc (encrypt_call key nonce aad text v) = 0 /\
    ct = encrypt_output heap key nonce aad text v /\
    tr' = tr ++ [EvAlloc (len text + 16);
                 EvEncrypt (name v) (len text) (len aad);
                 EvReleaseBuffers].
Proof.
  intros [Ha Ha'].
  destruct (decide (len key = 16)) as [Hk|Hk];
    [|now rewrite encrypt_key_rejected by assumption].
  destruct (decide (len nonce < 16)) as [Hn|Hn];
    [now rewrite encrypt_nonce_rejected by assumption|].
  destruct (resolve_variant vendor variant_name
              (Z.of_nat (String.length variant_name))) as [v|] eqn:Hv;
    [|now rewrite encrypt_variant_rejected by (assumption || lia)].
  destruct (decide (len text < 0)) as [Hneg|Hneg];
    [now rewrite (encrypt_negative_plaintext dm heap vendor key nonce aad text
                    variant_name tr v) by (assumption || lia)|].
  destruct (decide (PY_SSIZE_T_MAX dm - 16 < len text)) as [Ho|Ho];
    [now rewrite (encrypt_overflow dm heap vendor key nonce aad text
                    variant_name tr v) by (assumption || lia)|].
  destruct (alloc_ok heap (len text + 16)) eqn:Hheap;
    [|now rewrite (encrypt_no_memory dm heap vendor key nonce aad text
                     variant_name tr v) by (assumption || lia)].
  destruct (decide (enc_rc (encrypt_call key nonce aad text v) = 0)) as [Hrc|Hrc];
    [|now rewrite (encrypt_fault dm heap vendor key nonce aad text
                     variant_name tr v) by (assumption || lia)].
  rewrite (encrypt_returns dm heap vendor key nonce aad text variant_name
                           tr v) by (assumption || lia).
  intros [= <- <-]. exists v. repeat split; auto; lia.
Qed.

Lemma length_encrypt_output (heap : allocator) (key nonce aad text : Py_buffer)
      (v : ascon_variant) :
  length (encrypt_output heap key nonce aad text v) = Z.to_nat (len text + 16).
Proof.
  unfold encrypt_output. now rewrite !length_store, length_map, length_seqZ.
Qed.

(** When the primitive stores a body of the message's length and a 16-byte
    tag, the output buffer is the body followed by the tag. *)
Lemma encrypt_output_layout (heap : allocator) (key nonce aad text : Py_buffer)
      (v : ascon_variant) :
  0 <= len text -> enc_writes (encrypt_fn v) ->
  encrypt_output heap key nonce aad text v
  = enc_c (encrypt_call key nonce aad text v)
    ++ enc_t (encrypt_call key nonce aad text v).
Proof.
  intros Ht Hw. unfold encrypt_output.
  destruct (Hw (buf text) (len text) (buf aad) (len aad) (buf nonce) (buf key) Ht)
    as [Hc Htag].
  fold (encrypt_call key nonce aad text v) in Hc, Htag.
  replace (len text)
    with (Z.of_nat (length (enc_c (encrypt_call key nonce aad text v))))
    at 2 by lia.
  apply store_body_tag.
  rewrite length_map, length_seqZ, Hc, Htag. unfold ASCON_TAG_BYTES. lia.
Qed.

(** C2. Every successful encrypt call returns a buffer of exactly
    [len(plaintext) + 16] bytes that comes from one allocation of that
    size; the primitive was called once, with its body pointer at the
    start of that buffer and its tag pointer [len(plaintext)] bytes in, so
    that (the primitive storing a body as long as the message and a
    16-byte tag) the leading [len(plaintext)] bytes are the encrypted body
    and the final 16 bytes are the tag. *)
Theorem encrypt_ciphertext_layout (dm : data_model) (heap : allocator)
        (vendor : ascon_c) (key nonce aad plaintext : Py_buffer)
        (variant_name : string) (tr tr' : trace) (ct : list byte) :
  parsed dm aad ->
  native_encrypt dm heap vendor key nonce aad plaintext variant_name tr
  = (PyBytes ct, tr') ->
  Z.of_nat (length ct) = len plaintext + 16 /\
  exists v,
    resolve_variant vendor variant_name (Z.of_nat (String.length variant_name))
    = Some v /\
    let r := encrypt_fn v (buf plaintext) (len plaintext) (buf aad) (len aad)
                        (buf nonce) (buf key) in
    let fresh := map (uninitialised heap) (seqZ 0 (len plaintext + 16)) in
    tr' = tr ++ [EvAlloc (len plaintext + 16);
                 EvEncrypt (name v) (len plaintext) (len aad);
                 EvReleaseBuffers] /\
    ct = store (store fresh 0 (enc_c r)) (len plaintext) (enc_t r) /\
    (enc_writes (encrypt_fn v) ->
     ct = enc_c r ++ enc_t r /\
     take (Z.to_nat (len plaintext)) ct = enc_c r /\
     drop (Z.to_nat (len plaintext)) ct = enc_t r /\
     length (enc_t r) = 16%nat).
Proof.
  intros Ha Hcall.
  apply (encrypt_success_inv dm) in Hcall
    as (v & Hv & Hk & Hn & Ht & Hrc & -> & ->); [|assumption].
  split; [rewrite length_encrypt_output; lia|].
  exists v. cbv zeta. repeat apply conj; try reflexivity; try assumption.
  intros Hw.
  destruct (Hw (buf plaintext) (len plaintext) (buf aad) (len aad)
               (buf nonce) (buf key)) as [Hc Htag]; [lia|].
  rewrite encrypt_output_layout by (assumption || lia).
  unfold encrypt_call. repeat apply conj.
  - reflexivity.
  - rewrite <- Hc. apply take_app_length.
  - rewrite <- Hc. apply drop_app_length.
  - exact Htag.
Qed.

(** ** The pad instance meets the contract *)

Lemma xor_bits_cancel (a b : Pad.bits) :
  Pad.xor_bits (Pad.xor_bits a b) b = a.
Proof.
  destruct a as (a0 & a1 & a2 & a3 & a4 & a5 & a6 & a7).
  destruct b as (b0 & b1 & b2 & b3 & b4 & b5 & b6 & b7).
  unfold Pad.xor_bits.
  repeat rewrite xorb_assoc, xorb_nilpotent, xorb_false_r. reflexivity.
Qed.

Lemma xor_byte_cancel (a b : byte) : Pad.xor_byte (Pad.xor_byte a b) b = a.
Proof.
  unfold Pad.xor_byte. rewrite Byte.to_bits_of_bits, xor_bits_cancel.
  apply Byte.of_bits_to_bits.
Qed.

Lemma pad_agree (rate : byte) (npub npub' k k' : ptr) (i : Z) :
  agree 16 npub npub' -> agree 16 k k' ->
  Pad.pad rate npub k i = Pad.pad rate npub' k' i.
Proof.
  intros Hn Hk. unfold Pad.pad.
  assert (0 <= i mod 16 < 16) by (apply Z.mod_pos_bound; lia).
  now rewrite Hn, Hk.
Qed.

Lemma tag_of_agree (rate : byte) (msg aad : list byte) (npub npub' k k' : ptr) :
  agree 16 npub npub' -> agree 16 k k' ->
  Pad.tag_of rate msg aad npub k = Pad.tag_of rate msg aad npub' k'.
Proof.
  intros Hn Hk. unfold Pad.tag_of. apply map_seqZ_ext. intros j _.
  now rewrite (pad_agree rate npub npub' k k').
Qed.

Lemma pad_encrypt_reads (rate : byte) : enc_reads (Pad.encrypt rate).
Proof.
  intros m m' mlen ad ad' adlen npub npub' k k' Hm Had Hn Hk.
  unfold Pad.encrypt. f_equal.
  - apply map_seqZ_ext. intros i Hi.
    now rewrite (Hm i Hi), (pad_agree rate npub npub' k k').
  - rewrite (bytes_of_agree mlen m m'), (bytes_of_agree adlen ad ad')
      by assumption.
    now apply tag_of_agree.
Qed.

Lemma pad_decrypt_reads (rate : byte) : dec_reads (Pad.decrypt rate).
Proof.
  intros t t' c c' clen ad ad' adlen npub npub' k k' Ht Hc Had Hn Hk.
  unfold Pad.decrypt.
  assert (Hmsg : map (fun i => Pad.xor_byte (c i) (Pad.pad rate npub k i))
                     (seqZ 0 clen)
                 = map (fun i => Pad.xor_byte (c' i) (Pad.pad rate npub' k' i))
                       (seqZ 0 clen)).
  { apply map_seqZ_ext. intros i Hi.
    now rewrite (Hc i Hi), (pad_agree rate npub npub' k k'). }
  rewrite Hmsg, (bytes_of_agree adlen ad ad'), (bytes_of_agree 16 t t')
    by assumption.
  now rewrite (tag_of_agree rate _ _ npub npub' k k').
Qed.

Lemma pad_encrypt_writes (rate : byte) : enc_writes (Pad.encrypt rate).
Proof.
  intros m mlen ad adlen npub k Hm. simpl. unfold Pad.tag_of.
  now rewrite !length_map, !length_seqZ.
Qed.

Lemma pad_encrypt_succeeds (rate : byte) : enc_succeeds (Pad.encrypt rate).
Proof. now intros m mlen ad adlen npub k _ _. Qed.

Lemma pad_decrypt_inverts (rate : byte) :
  dec_inverts (Pad.encrypt rate) (Pad.decrypt rate).
Proof.
  intros m mlen ad adlen npub k Hm Had. cbv zeta. unfold Pad.decrypt. simpl.
  assert (Hmsg : map (fun i =>
                        Pad.xor_byte
                          (ptr_of (map (fun i0 => Pad.xor_byte (m i0)
                                                    (Pad.pad rate npub k i0))
                                       (seqZ 0 mlen)) i)
                          (Pad.pad rate npub k i))
                     (seqZ 0 mlen)
                 = bytes_of m mlen).
  { apply map_seqZ_ext. intros i Hi.
    rewrite ptr_of_map_seqZ by assumption. apply xor_byte_cancel. }
  rewrite Hmsg. f_equal.
  assert (Htag : bytes_of (ptr_of (Pad.tag_of rate (bytes_of m mlen)
                                              (bytes_of ad adlen) npub k)) 16
                 = Pad.tag_of rate (bytes_of m mlen) (bytes_of ad adlen) npub k).
  { unfold Pad.tag_of, bytes_of at 1. apply map_seqZ_ext. intros j Hj.
    now rewrite ptr_of_map_seqZ. }
  rewrite Htag. now rewrite bool_decide_eq_true_2.
Qed.

Lemma pad_contract (rate : byte) :
  aead_contract (Pad.encrypt rate) (Pad.decrypt rate).
Proof.
  constructor.
  - apply pad_encrypt_reads.
  - apply pad_decrypt_reads.
  - apply pad_encrypt_writes.
  - apply pad_encrypt_succeeds.
  - apply pad_decrypt_inverts.
Qed.

Lemma pad_vendor_contract : vendor_contract Pad.vendor.
Proof.
  unfold vendor_contract, each_variant, kVariants.
  constructor; [apply pad_contract|].
  constructor; [apply pad_contract|].
  constructor.
Qed.

Lemma each_variant_weaken (vendor : ascon_c) (P Q : ascon_variant -> Prop) :
  (forall v, P v -> Q v) -> each_variant vendor P -> each_variant vendor Q.
Proof.
  intros HPQ Hall. unfold each_variant in *.
  rewrite Forall_forall in *. auto.
Qed.

Lemma encrypt_ciphertext_layout_witness :
  let r := Pad.encrypt x08 (buf (view_of_string "hello")) 5 (buf sample_aad) 3
                       (buf sample_nonce) (buf sample_key) in
  length sample_ciphertext = 21%nat /\
  sample_ciphertext = enc_c r ++ enc_t r /\
  take 5 sample_ciphertext = enc_c r /\
  drop 5 sample_ciphertext = enc_t r /\
  length (enc_t r) = 16%nat.
Proof.
  cbv zeta.
  edestruct (encrypt_ciphertext_layout LP64 plenty Pad.vendor sample_key
               sample_nonce sample_aad (view_of_string "hello")
               "Ascon-AEAD128" []) as (Hlen & v & Hv & _ & _ & Hlayout).
  - vm_compute. split; congruence.
  - vm_compute. reflexivity.
  - injection Hv as <-. split; [vm_compute; reflexivity|].
    apply Hlayout. apply pad_encrypt_writes.
Defined.

(** ** Dependence on the nonce *)

(** C8. Two encrypt calls with the same key, aad, plaintext and variant
    name, whose nonces are both at least 16 bytes long and have the same
    first 16 bytes, have the same outcome: the same ciphertext when they
    succeed, and the same error and the same log otherwise.  The binding
    hands the primitive the pointer to the nonce and no length, and the
    primitive reads 16 bytes of it. *)
Theorem encrypt_nonce_tail_independent (dm : data_model) (heap : allocator)
        (vendor : ascon_c) (key nonce nonce' aad plaintext : Py_buffer)
        (variant_name : string) (tr : trace) :
  each_variant vendor (fun v => enc_reads (encrypt_fn v)) ->
  16 <= len nonce -> 16 <= len nonce' ->
  agree 16 (buf nonce) (buf nonce') ->
  native_encrypt dm heap vendor key nonce aad plaintext variant_name tr
  = native_encrypt dm heap vendor key nonce' aad plaintext variant_name tr.
Proof.
  intros Hreads Hn Hn' Hagree.
  destruct (resolve_variant vendor variant_name
              (Z.of_nat (String.length variant_name))) as [v|] eqn:Hv.
  - assert (Hcall : forall mlen adlen,
               encrypt_fn v (buf plaintext) mlen (buf aad) adlen
                          (buf nonce) (buf key)
               = encrypt_fn v (buf plaintext) mlen (buf aad) adlen
                            (buf nonce') (buf key)).
    { intros mlen adlen.
      apply (each_variant_resolved vendor _ variant_name v Hreads Hv);
        auto using agree_refl. }
    unfold_c. rewrite Hv.
    destruct (Z.eqb_spec (len key) 16); simpl; [|reflexivity].
    destruct (Z.ltb_spec (len nonce) 16); [lia|].
    destruct (Z.ltb_spec (len nonce') 16); [lia|]. simpl.
    destruct (Z.ltb_spec (len aad) 0); simpl; [reflexivity|].
    destruct (Z.ltb_spec (len plaintext) 0); simpl; [reflexivity|].
    destruct (len plaintext >? PY_SSIZE_T_MAX dm - 16); simpl; [reflexivity|].
    destruct (alloc_ok heap _); simpl; [|reflexivity].
    now rewrite Hcall.
  - unfold_c. rewrite Hv. tests; reflexivity.
Qed.

Lemma encrypt_nonce_tail_independent_witness :
  len sample_nonce = 16 /\ len sample_long_nonce = 27 /\
  native_encrypt LP64 plenty Pad.vendor sample_key sample_long_nonce sample_aad
                 (view_of_string "hello") "Ascon-AEAD128" []
  = (PyBytes sample_ciphertext,
     [EvAlloc 21; EvEncrypt "Ascon-AEAD128" 5 3; EvReleaseBuffers]).
Proof.
  split; [reflexivity|]. split; [reflexivity|].
  rewrite <- (encrypt_nonce_tail_independent LP64 plenty Pad.vendor sample_key
                sample_nonce sample_long_nonce sample_aad
                (view_of_string "hello") "Ascon-AEAD128" []).
  - vm_compute. reflexivity.
  - apply (each_variant_weaken Pad.vendor
             (fun v => aead_contract (encrypt_fn v) (decrypt_fn v))).
    + intros v Hc. apply Hc.
    + apply pad_vendor_contract.
  - vm_compute. congruence.
  - vm_compute. congruence.
  - intros i Hi.
    assert (Hcases : i = 0 \/ i = 1 \/ i = 2 \/ i = 3 \/ i = 4 \/ i = 5 \/
                     i = 6 \/ i = 7 \/ i = 8 \/ i = 9 \/ i = 10 \/ i = 11 \/
                     i = 12 \/ i = 13 \/ i = 14 \/ i = 15) by lia.
    repeat (destruct Hcases as [->|Hcases]; [reflexivity|]).
    now subst i.
Defined.

(** ** Round trip *)

(** C1. For each of the two supported variants, every 16-byte key, every
    nonce of at least 16 bytes, every aad and every plaintext that leaves
    room for the tag ([len <= PY_SSIZE_T_MAX - 16]), with an allocator
    that serves the two output buffers: encrypt returns a ciphertext, and
    decrypt of that ciphertext under the same key, nonce, aad and variant
    returns the bytes of the plaintext. *)
Theorem decrypt_encrypt_round_trip (dm : data_model) (heap : allocator)
        (vendor : ascon_c) (key nonce aad plaintext : Py_buffer)
        (variant_name : string) (tr tr0 : trace) :
  vendor_contract vendor ->
  variant_name = "Ascon-AEAD128"%string \/
  variant_name = "Ascon-AEAD128a"%string ->
  len key = 16 -> 16 <= len nonce -> parsed dm aad ->
  0 <= len plaintext <= PY_SSIZE_T_MAX dm - 16 ->
  alloc_ok heap (len plaintext + 16) = true ->
  alloc_ok heap (len plaintext) = true ->
  exists ct tr' tr0',
    native_encrypt dm heap vendor key nonce aad plaintext variant_name tr
    = (PyBytes ct, tr') /\
    native_decrypt heap vendor key nonce aad (view_of_bytes ct) variant_name tr0
    = (PyBytes (bytes_of_view plaintext), tr0').
Proof.
  intros Hcontract Hname Hk Hn Ha Ht Hheap Hheap'.
  pose proof (PY_SSIZE_T_MAX_range dm) as Hmax.
  assert (Hv : exists v,
             resolve_variant vendor variant_name
                             (Z.of_nat (String.length variant_name)) = Some v).
  { destruct Hname as [->| ->]; eexists; reflexivity. }
  destruct Hv as [v Hv].
  pose proof (each_variant_resolved vendor _ variant_name v Hcontract Hv)
    as [Hreads Hdreads Hwrites Hsucc Hinv].
  destruct Ha as [Ha0 Ha1].
  exists (encrypt_output heap key nonce aad plaintext v). do 2 eexists. split.
  - apply (encrypt_returns dm heap vendor key nonce aad plaintext variant_name
                           tr v); try assumption; try lia.
    apply Hsucc; lia.
  - rewrite encrypt_output_layout by (assumption || lia).
    set (r := encrypt_call key nonce aad plaintext v).
    destruct (Hwrites (buf plaintext) (len plaintext) (buf aad) (len aad)
                      (buf nonce) (buf key)) as [Hc Htag]; [lia|].
    fold (encrypt_call key nonce aad plaintext v) in Hc, Htag.
    fold r in Hc, Htag. unfold ASCON_TAG_BYTES in Htag.
    set (ct := view_of_bytes (enc_c r ++ enc_t r)).
    assert (Hlen : len ct = len plaintext + 16)
      by (unfold ct; simpl; rewrite length_app; lia).
    assert (Hcall : decrypt_call key nonce aad ct v
                    = {| dec_rc := 0;
                         dec_m := bytes_of (buf plaintext) (len plaintext) |}).
    { unfold decrypt_call. rewrite Hlen.
      replace (len plaintext + 16 - 16) with (len plaintext) by lia.
      rewrite <- (Hinv (buf plaintext) (len plaintext) (buf aad) (len aad)
                       (buf nonce) (buf key)) by lia.
      fold (encrypt_call key nonce aad plaintext v). fold r.
      apply Hdreads; auto using agree_refl.
      - unfold ct; simpl.
        replace (len plaintext) with (Z.of_nat (length (enc_c r))) by lia.
        replace ASCON_TAG_BYTES with (Z.of_nat (length (enc_t r)))
          by (unfold ASCON_TAG_BYTES; lia).
        apply ptr_of_app_r.
      - unfold ct; simpl.
        replace (len plaintext) with (Z.of_nat (length (enc_c r))) by lia.
        apply ptr_of_app_l. }
    rewrite (decrypt_returns dm heap vendor key nonce aad ct variant_name tr0 v);
      try assumption; try lia.
    + f_equal. f_equal. unfold decrypt_output. rewrite Hcall, Hlen. simpl.
      replace (len plaintext + 16 - 16) with (len plaintext) by lia.
      apply store_whole. unfold bytes_of_view.
      now rewrite length_map, length_seqZ, length_bytes_of.
    + rewrite Hlen. replace (len plaintext + 16 - 16) with (len plaintext) by lia.
      assumption.
    + now rewrite Hcall.
Qed.

Lemma decrypt_encrypt_round_trip_witness :
  exists ct tr' tr0',
    native_encrypt LP64 plenty Pad.vendor sample_key sample_long_nonce
                   sample_aad (view_of_string "hello") "Ascon-AEAD128a" []
    = (PyBytes ct, tr') /\
    native_decrypt plenty Pad.vendor sample_key sample_long_nonce sample_aad
                   (view_of_bytes ct) "Ascon-AEAD128a" []
    = (PyBytes (list_byte_of_string "hello"), tr0').
Proof.
  apply (decrypt_encrypt_round_trip LP64 plenty Pad.vendor sample_key
           sample_long_nonce sample_aad (view_of_string "hello")
           "Ascon-AEAD128a" [] []).
  - apply pad_vendor_contract.
  - now right.
  - reflexivity.
  - vm_compute. congruence.
  - vm_compute. split; congruence.
  - vm_compute. split; congruence.
  - reflexivity.
  - reflexivity.
Defined.

(** * Further properties of the two entry points *)

(** ** Every path, with its log *)

Lemma encrypt_takes_a_path (dm : data_model) (heap : allocator)
      (vendor : ascon_c) (key nonce aad text : Py_buffer)
      (variant_name : string) (tr : trace) :
  parsed dm aad -> parsed dm text ->
  encrypt_path dm heap vendor key nonce aad text variant_name tr
    (native_encrypt dm heap vendor key nonce aad text variant_name tr).
Proof.
  intros [Ha Ha'] [Ht Ht'].
  destruct (decide (len key = 16)) as [Hk|Hk];
    [|rewrite encrypt_key_rejected by assumption; now constructor].
  destruct (decide (len nonce < 16)) as [Hn|Hn];
    [rewrite encrypt_nonce_rejected by assumption; now constructor|].
  destruct (resolve_variant vendor variant_name
              (Z.of_nat (String.length variant_name))) as [v|] eqn:Hv;
    [|rewrite encrypt_variant_rejected by (assumption || lia);
      constructor; (assumption || lia)].
  destruct (decide (PY_SSIZE_T_MAX dm - 16 < len text)) as [Ho|Ho];
    [rewrite (encrypt_overflow dm heap vendor key nonce aad text variant_name
                               tr v) by (assumption || lia);
     apply EncOverflow with (v := v); (assumption || lia)|].
  destruct (alloc_ok heap (len text + 16)) eqn:Hheap;
    [|rewrite (encrypt_no_memory dm heap vendor key nonce aad text
                                 variant_name tr v) by (assumption || lia);
      apply EncNoMemory with (v := v); (assumption || lia)].
  destruct (decide (enc_rc (encrypt_call key nonce aad text v) = 0)) as [Hrc|Hrc].
  - rewrite (encrypt_returns dm heap vendor key nonce aad text variant_name
                             tr v) by (assumption || lia).
    apply EncReturns; (assumption || lia).
  - rewrite (encrypt_fault dm heap vendor key nonce aad text variant_name
                           tr v) by (assumption || lia).
    apply EncFault; (assumption || lia).
Qed.

Lemma decrypt_takes_a_path (dm : data_model) (heap : allocator)
      (vendor : ascon_c) (key nonce aad text : Py_buffer)
      (variant_name : string) (tr : trace) :
  parsed dm aad -> parsed dm text ->
  decrypt_path heap vendor key nonce aad text variant_name tr
    (native_decrypt heap vendor key nonce aad text variant_name tr).
Proof.
  intros [Ha Ha'] [Ht Ht'].
  destruct (decide (len key = 16)) as [Hk|Hk];
    [|rewrite decrypt_key_rejected by assumption; now constructor].
  destruct (decide (len nonce < 16)) as [Hn|Hn];
    [rewrite decrypt_nonce_rejected by assumption; now constructor|].
  destruct (decide (len text < 16)) as [Hc|Hc];
    [rewrite decrypt_short_rejected by (assumption || lia);
     constructor; (assumption || lia)|].
  destruct (resolve_variant vendor variant_name
              (Z.of_nat (String.length variant_name))) as [v|] eqn:Hv;
    [|rewrite decrypt_variant_rejected by (assumption || lia);
      constructor; (assumption || lia)].
  destruct (alloc_ok heap (len text - 16)) eqn:Hheap;
    [|rewrite (decrypt_no_memory heap vendor key nonce aad text
                                 variant_name tr v) by (assumption || lia);
      apply DecNoMemory with (v := v); (assumption || lia)].
  destruct (decide (dec_rc (decrypt_call key nonce aad text v) = 0)) as [Hrc|Hrc].
  - rewrite (decrypt_returns dm heap vendor key nonce aad text variant_name
                             tr v) by (assumption || lia).
    apply DecReturns; (assumption || lia).
  - rewrite (decrypt_refused dm heap vendor key nonce aad text variant_name
                             tr v) by (assumption || lia).
    apply DecRefused; (assumption || lia).
Qed.





(** ** Faults of the primitive and of the allocator *)

(** X3. When every check has passed and the output buffer is allocated, a
    non-zero status of the primitive's encrypt makes the call raise
    [RuntimeError] "Ascon encryption failed": the buffer's only reference
    is dropped, and nothing the primitive stored reaches the caller. *)
Theorem encrypt_primitive_fault (dm : data_model) (heap : allocator)
        (vendor : ascon_c) (key nonce aad plaintext : Py_buffer)
        (variant_name : string) (tr : trace) (v : ascon_variant) :
  len key = 16 -> 16 <= len nonce ->
  resolve_variant vendor variant_name (Z.of_nat (String.length variant_name))
  = Some v ->
  parsed dm aad -> 0 <= len plaintext <= PY_SSIZE_T_MAX dm - 16 ->
  alloc_ok heap (len plaintext + 16) = true ->
  enc_rc (encrypt_fn v (buf plaintext) (len plaintext) (buf aad) (len aad)
                     (buf nonce) (buf key)) <> 0 ->
  native_encrypt dm heap vendor key nonce aad plaintext variant_name tr
  = (NULL PyExc_RuntimeError "Ascon encryption failed",
     tr ++ [EvAlloc (len plaintext + 16);
            EvEncrypt (name v) (len plaintext) (len aad);
            EvDecref; EvReleaseBuffers]).
Proof.
  intros Hk Hn Hv [Ha Ha'] Ht Hheap Hrc.
  now apply encrypt_fault.
Qed.

Lemma encrypt_primitive_fault_witness :
  native_encrypt LP64 plenty faulty_vendor sample_key sample_nonce sample_aad
                 (view_of_string "hello") "Ascon-AEAD128" []
  = (NULL PyExc_RuntimeError "Ascon encryption failed",
     [EvAlloc 21; EvEncrypt "Ascon-AEAD128" 5 3; EvDecref; EvReleaseBuffers]).
Proof.
  erewrite (encrypt_primitive_fault LP64 plenty faulty_vendor sample_key
              sample_nonce sample_aad (view_of_string "hello") "Ascon-AEAD128"
              []) by evaluated.
  reflexivity.
Defined.



(** ** What [None] means *)

(** X5. On parsed arguments, decrypt returns [None] exactly when the key,
    nonce and ciphertext lengths passed, the variant name resolved, the
    output buffer was allocated and the primitive's decrypt reported a
    non-zero status; no usage error is ever reported as [None]. *)
Theorem none_means_verification_failed (dm : data_model) (heap : allocator)
        (vendor : ascon_c) (key nonce aad ciphertext : Py_buffer)
        (variant_name : string) (tr : trace) :
  parsed dm aad -> parsed dm ciphertext ->
  fst (native_decrypt heap vendor key nonce aad ciphertext variant_name tr)
  = Py_None
  <->
  exists v,
    len key = 16 /\ 16 <= len nonce /\ 16 <= len ciphertext /\
    resolve_variant vendor variant_name (Z.of_nat (String.length variant_name))
    = Some v /\
    alloc_ok heap (len ciphertext - 16) = true /\
    dec_rc (decrypt_fn v (ptr_add (buf ciphertext) (len ciphertext - 16))
                       (buf ciphertext) (len ciphertext - 16)
                       (buf aad) (len aad) (buf nonce) (buf key)) <> 0.
Proof.
  intros Ha Ht. split.
  - intros Hnone.
    destruct (decrypt_takes_a_path dm heap vendor key nonce aad ciphertext
                                   variant_name tr Ha Ht);
      simpl in Hnone; try discriminate.
    exists v. auto 10.
  - intros (v & Hk & Hn & Hc & Hv & Hheap & Hrc).
    destruct Ha, Ht.
    rewrite (decrypt_refused dm heap vendor key nonce aad ciphertext
                             variant_name tr v); auto.
Qed.

Lemma none_means_verification_failed_witness :
  exists v,
    resolve_variant Pad.vendor "Ascon-AEAD128" 13 = Some v /\
    dec_rc (decrypt_fn v
              (ptr_add (ptr_of (x00 :: tail sample_ciphertext)) 5)
              (ptr_of (x00 :: tail sample_ciphertext)) 5
              (buf sample_aad) 3 (buf sample_nonce) (buf sample_key)) <> 0.
Proof.
  destruct (proj1 (none_means_verification_failed LP64 plenty Pad.vendor
                     sample_key sample_nonce sample_aad
                     (view_of_bytes (x00 :: tail sample_ciphertext))
                     "Ascon-AEAD128" []
                     ltac:(evaluated) ltac:(evaluated))
                  ltac:(evaluated))
    as (v & _ & _ & _ & Hv & _ & Hrc).
  exists v. split; [exact Hv|exact Hrc].
Defined.

(** ** The binding decides on lengths and the name alone *)

(** X6. [native_encrypt] takes no decision on the bytes behind its four
    buffers: two calls with the same variant name and the same four
    lengths, on which the resolved primitive answers alike, have the same
    result and the same log.  The bytes only travel to the primitive. *)
Theorem encrypt_decides_on_lengths_only (dm : data_model) (heap : allocator)
        (vendor : ascon_c) (key key' nonce nonce' aad aad' text text' : Py_buffer)
        (variant_name : string) (tr : trace) :
  len key = len key' -> len nonce = len nonce' ->
  len aad = len aad' -> len text = len text' ->
  (forall v,
      resolve_variant vendor variant_name
                      (Z.of_nat (String.length variant_name)) = Some v ->
      encrypt_fn v (buf text) (to_uint64 (len text))
                 (buf aad) (to_uint64 (len aad)) (buf nonce) (buf key)
      = encrypt_fn v (buf text') (to_uint64 (len text))
                   (buf aad') (to_uint64 (len aad)) (buf nonce') (buf key')) ->
  native_encrypt dm heap vendor key nonce aad text variant_name tr
  = native_encrypt dm heap vendor key' nonce' aad' text' variant_name tr.
Proof.
  intros Hk Hn Ha Ht Hcall. unfold_c. rewrite <- Hk, <- Hn, <- Ha, <- Ht.
  destruct (Z.eqb_spec (len key) 16); simpl; [|reflexivity].
  destruct (Z.ltb_spec (len nonce) 16); simpl; [reflexivity|].
  destruct (resolve_variant vendor variant_name
              (Z.of_nat (String.length variant_name))) as [v|] eqn:Hv;
    simpl; [|reflexivity].
  destruct (Z.ltb_spec (len aad) 0); simpl; [reflexivity|].
  destruct (Z.ltb_spec (len text) 0); simpl; [reflexivity|].
  destruct (len text >? PY_SSIZE_T_MAX dm - 16); simpl; [reflexivity|].
  destruct (alloc_ok heap _); simpl; [|reflexivity].
  now rewrite (Hcall v eq_refl).
Qed.

Lemma encrypt_decides_on_lengths_only_witness :
  native_encrypt LP64 plenty Pad.vendor sample_key sample_nonce sample_aad
                 (view_of_prefix 5 (list_byte_of_string "hello, world"))
                 "Ascon-AEAD128" []
  = (PyBytes sample_ciphertext,
     [EvAlloc 21; EvEncrypt "Ascon-AEAD128" 5 3; EvReleaseBuffers]).
Proof.
  rewrite <- (encrypt_decides_on_lengths_only LP64 plenty Pad.vendor
                sample_key sample_key sample_nonce sample_nonce
                sample_aad sample_aad
                (view_of_string "hello")
                (view_of_prefix 5 (list_byte_of_string "hello, world"))
                "Ascon-AEAD128" []); try reflexivity.
  intros v [= <-]. simpl.
  apply pad_encrypt_reads; auto using agree_refl.
  intros i Hi.
  assert (Hcases : i = 0 \/ i = 1 \/ i = 2 \/ i = 3 \/ i = 4)
    by (change (to_uint64 (Z.of_nat 5)) with 5 in Hi; lia).
  destruct Hcases as [->|[->|[->|[->| ->]]]]; reflexivity.
Defined.

(** X7. [native_decrypt] likewise: two calls with the same variant name
    and the same four lengths, on which the resolved primitive answers
    alike, have the same result and the same log. *)
Theorem decrypt_decides_on_lengths_only (heap : allocator)
        (vendor : ascon_c) (key key' nonce nonce' aad aad' text text' : Py_buffer)
        (variant_name : string) (tr : trace) :
  len key = len key' -> len nonce = len nonce' ->
  len aad = len aad' -> len text = len text' ->
  (forall v,
      resolve_variant vendor variant_name
                      (Z.of_nat (String.length variant_name)) = Some v ->
      decrypt_fn v (ptr_add (buf text) (len text - 16)) (buf text)
                 (to_uint64 (len text - 16)) (buf aad) (to_uint64 (len aad))
                 (buf nonce) (buf key)
      = decrypt_fn v (ptr_add (buf text') (len text - 16)) (buf text')
                   (to_uint64 (len text - 16)) (buf aad') (to_uint64 (len aad))
                   (buf nonce') (buf key')) ->
  native_decrypt heap vendor key nonce aad text variant_name tr
  = native_decrypt heap vendor key' nonce' aad' text' variant_name tr.
Proof.
  intros Hk Hn Ha Ht Hcall. unfold_c. rewrite <- Hk, <- Hn, <- Ha, <- Ht.
  destruct (Z.eqb_spec (len key) 16); simpl; [|reflexivity].
  destruct (Z.ltb_spec (len nonce) 16); simpl; [reflexivity|].
  destruct (Z.ltb_spec (len text) 16); simpl; [reflexivity|].
  destruct (resolve_variant vendor variant_name
              (Z.of_nat (String.length variant_name))) as [v|] eqn:Hv;
    simpl; [|reflexivity].
  destruct (Z.ltb_spec (len aad) 0); simpl; [reflexivity|].
  destruct (Z.ltb_spec (len text - 16) 0); simpl; [reflexivity|].
  destruct (alloc_ok heap _); simpl; [|reflexivity].
  now rewrite (Hcall v eq_refl).
Qed.

Lemma decrypt_decides_on_lengths_only_witness :
  native_decrypt plenty Pad.vendor sample_key sample_nonce sample_aad
                 (view_of_prefix 21 (sample_ciphertext
                                       ++ list_byte_of_string "trailer"))
                 "Ascon-AEAD128" []
  = (PyBytes (list_byte_of_string "hello"),
     [EvAlloc 5; EvDecrypt "Ascon-AEAD128" 5 3; EvReleaseBuffers]).
Proof.
  rewrite <- (decrypt_decides_on_lengths_only plenty Pad.vendor
                sample_key sample_key sample_nonce sample_nonce
                sample_aad sample_aad
                (view_of_bytes sample_ciphertext)
                (view_of_prefix 21 (sample_ciphertext
                                      ++ list_byte_of_string "trailer"))
                "Ascon-AEAD128" []);
    [vm_compute; reflexivity|reflexivity..|].
  intros v [= <-]. unfold view_of_bytes, view_of_prefix. cbn [buf len].
  change (decrypt_fn _) with (Pad.decrypt x08).
  apply pad_decrypt_reads; auto using agree_refl.
  - intros i Hi. unfold ptr_add. symmetry.
    apply (ptr_of_app_l sample_ciphertext (list_byte_of_string "trailer")).
    change (Z.of_nat (length sample_ciphertext)) with 21.
    unfold ASCON_TAG_BYTES in Hi. lia.
  - intros i Hi. symmetry.
    apply (ptr_of_app_l sample_ciphertext (list_byte_of_string "trailer")).
    change (Z.of_nat (length sample_ciphertext)) with 21.
    change (to_uint64 _) with 5 in Hi. lia.
Defined.

(** ** What the allocator is asked for *)

Lemma requested_app (tr1 tr2 : trace) :
  requested (tr1 ++ tr2) = requested tr1 ++ requested tr2.
Proof.
  induction tr1 as [|e tr1 IH]; [reflexivity|].
  destruct e; simpl; now rewrite IH.
Qed.

(** X8. On parsed arguments each call asks the allocator for at most one
    buffer.  What [native_encrypt] asks for is [plaintext.len + 16] and
    lies between 16 and [PY_SSIZE_T_MAX], so the sum never leaves the
    range of [Py_ssize_t]; what [native_decrypt] asks for is
    [ciphertext.len - 16] and is never negative. *)
Theorem allocation_requests_in_range (dm : data_model) (heap : allocator)
        (vendor : ascon_c) (key nonce aad text : Py_buffer)
        (variant_name : string) (tr : trace) :
  parsed dm aad -> parsed dm text ->
  (exists sizes,
      requested (snd (native_encrypt dm heap vendor key nonce aad text
                                     variant_name tr))
      = requested tr ++ sizes /\
      (length sizes <= 1)%nat /\
      Forall (fun size => size = len text + 16 /\
                          16 <= size <= PY_SSIZE_T_MAX dm) sizes) /\
  (exists sizes,
      requested (snd (native_decrypt heap vendor key nonce aad text
                                     variant_name tr))
      = requested tr ++ sizes /\
      (length sizes <= 1)%nat /\
      Forall (fun size => size = len text - 16 /\
                          0 <= size <= PY_SSIZE_T_MAX dm - 16) sizes).
Proof.
  intros Ha Ht. pose proof Ht as [Ht0 Ht1]. split.
  - destruct (encrypt_takes_a_path dm heap vendor key nonce aad text
                                   variant_name tr Ha Ht);
      simpl; rewrite requested_app; simpl;
      first [ exists []; split; [reflexivity|]; split; [simpl; lia|constructor]
            | exists [len text + 16]; split; [reflexivity|]; split;
              [simpl; lia|repeat constructor; lia] ].
  - destruct (decrypt_takes_a_path dm heap vendor key nonce aad text
                                   variant_name tr Ha Ht);
      simpl; rewrite requested_app; simpl;
      first [ exists []; split; [reflexivity|]; split; [simpl; lia|constructor]
            | exists [len text - 16]; split; [reflexivity|]; split;
              [simpl; lia|repeat constructor; lia] ].
Qed.

Lemma allocation_requests_in_range_witness :
  requested (snd (native_encrypt ILP32 plenty Pad.vendor sample_key
                                 sample_nonce sample_aad
                                 (zeros (PY_SSIZE_T_MAX ILP32 - 15))
                                 "Ascon-AEAD128" []))
  = [] /\
  requested (snd (native_decrypt exhausted Pad.vendor sample_key
                                 sample_nonce sample_aad
                                 (view_of_bytes sample_ciphertext)
                                 "Ascon-AEAD128" []))
  = [5].
Proof.
  destruct (allocation_requests_in_range ILP32 plenty Pad.vendor sample_key
              sample_nonce sample_aad (zeros (PY_SSIZE_T_MAX ILP32 - 15))
              "Ascon-AEAD128" [])
    as [(sizes & -> & Hone & Hall) _]; [evaluated..|].
  destruct (allocation_requests_in_range LP64 exhausted Pad.vendor sample_key
              sample_nonce sample_aad (view_of_bytes sample_ciphertext)
              "Ascon-AEAD128" [])
    as [_ (sizes' & Hreq & _)]; [evaluated..|].
  split; [|evaluated].
  destruct sizes as [|size sizes]; [reflexivity|].
  apply Forall_cons in Hall as [[-> Hrange] _].
  exfalso. revert Hrange. vm_compute. intros [_ Hle]. now apply Hle.
Defined.

(** ** Each error names its cause *)

(** X9. On parsed arguments each usage error of [native_encrypt] is raised
    in exactly one situation: the key error when the key is not 16 bytes
    long; the nonce error when the key is good and the nonce is short; the
    unknown-variant error when both are good and the name is not in the
    table; the overflow error when those three checks pass and the
    plaintext is longer than [PY_SSIZE_T_MAX - 16]. *)
Theorem encrypt_errors_name_their_cause (dm : data_model) (heap : allocator)
        (vendor : ascon_c) (key nonce aad plaintext : Py_buffer)
        (variant_name : string) (tr : trace) :
  parsed dm aad -> parsed dm plaintext ->
  let result :=
    fst (native_encrypt dm heap vendor key nonce aad plaintext variant_name tr) in
  let lookup :=
    resolve_variant vendor variant_name
                    (Z.of_nat (String.length variant_name)) in
  (result = NULL PyExc_ValueError "key must be 16 bytes" <-> len key <> 16) /\
  (result = NULL PyExc_ValueError "nonce must be at least 16 bytes" <->
   len key = 16 /\ len nonce < 16) /\
  (result = NULL PyExc_ValueError "unknown Ascon variant" <->
   len key = 16 /\ 16 <= len nonce /\ lookup = None) /\
  (result = NULL PyExc_OverflowError "ciphertext length exceeds platform limits"
   <-> len key = 16 /\ 16 <= len nonce /\ lookup <> None /\
       PY_SSIZE_T_MAX dm - 16 < len plaintext).
Proof.
  intros Ha Ht. cbv zeta.
  destruct (encrypt_takes_a_path dm heap vendor key nonce aad plaintext
                                 variant_name tr Ha Ht);
    simpl; repeat split; intros;
    repeat match goal with H : _ /\ _ |- _ => destruct H end;
    try discriminate; try lia; try congruence.
Qed.

Lemma encrypt_errors_name_their_cause_witness :
  fst (native_encrypt ILP32 plenty Pad.vendor sample_key sample_nonce
                      sample_aad (zeros (PY_SSIZE_T_MAX ILP32 - 15))
                      "Ascon-AEAD128a" [])
  = NULL PyExc_OverflowError "ciphertext length exceeds platform limits".
Proof.
  apply (encrypt_errors_name_their_cause ILP32 plenty Pad.vendor sample_key
           sample_nonce sample_aad (zeros (PY_SSIZE_T_MAX ILP32 - 15))
           "Ascon-AEAD128a" []); [evaluated..|].
  repeat split; first [discriminate|evaluated].
Defined.

(** X10. On parsed arguments the usage errors of [native_decrypt] are
    raised in the order key, nonce, ciphertext length, variant name, each
    in exactly one situation: the key error when the key is not 16 bytes
    long; the nonce error when the key is good and the nonce is short;
    "ciphertext too short" when both are good and the ciphertext has fewer
    than 16 bytes; the unknown-variant error when all three are good and
    the name is not in the table. *)
Theorem decrypt_errors_name_their_cause (dm : data_model) (heap : allocator)
        (vendor : ascon_c) (key nonce aad ciphertext : Py_buffer)
        (variant_name : string) (tr : trace) :
  parsed dm aad -> parsed dm ciphertext ->
  let result :=
    fst (native_decrypt heap vendor key nonce aad ciphertext variant_name tr) in
  let lookup :=
    resolve_variant vendor variant_name
                    (Z.of_nat (String.length variant_name)) in
  (result = NULL PyExc_ValueError "key must be 16 bytes" <-> len key <> 16) /\
  (result = NULL PyExc_ValueError "nonce must be at least 16 bytes" <->
   len key = 16 /\ len nonce < 16) /\
  (result = NULL PyExc_ValueError "ciphertext too short" <->
   len key = 16 /\ 16 <= len nonce /\ len ciphertext < 16) /\
  (result = NULL PyExc_ValueError "unknown Ascon variant" <->
   len key = 16 /\ 16 <= len nonce /\ 16 <= len ciphertext /\ lookup = None).
Proof.
  intros Ha Ht. cbv zeta.
  destruct (decrypt_takes_a_path dm heap vendor key nonce aad ciphertext
                                 variant_name tr Ha Ht);
    simpl; repeat split; intros;
    repeat match goal with H : _ /\ _ |- _ => destruct H end;
    try discriminate; try lia; try congruence.
Qed.

Lemma decrypt_errors_name_their_cause_witness :
  fst (native_decrypt plenty Pad.vendor sample_key sample_nonce sample_aad
                      (view_of_string "0123456789") "Ascon-AEAD128b" [])
  = NULL PyExc_ValueError "ciphertext too short".
Proof.
  apply (decrypt_errors_name_their_cause LP64 plenty Pad.vendor sample_key
           sample_nonce sample_aad (view_of_string "0123456789")
           "Ascon-AEAD128b" []); [evaluated..|].
  repeat split; evaluated.
Defined.

(** ** Decrypt after encrypt, whatever the primitive *)

(** X11. Whatever the primitive does, what a successful encrypt call
    returns is never a usage error for decrypt under the same key, nonce,
    aad and variant name: once its output buffer is allocated, decrypt
    calls the matching primitive with a body of [len(plaintext)] bytes and
    the tag read [len(plaintext)] bytes into the ciphertext, and returns
    [None] or [len(plaintext)] bytes. *)
Theorem decrypt_accepts_what_encrypt_returns (dm : data_model)
        (heap : allocator) (vendor : ascon_c)
        (key nonce aad plaintext : Py_buffer) (variant_name : string)
        (tr tr' tr0 : trace) (ct : list byte) :
  parsed dm aad ->
  native_encrypt dm heap vendor key nonce aad plaintext variant_name tr
  = (PyBytes ct, tr') ->
  alloc_ok heap (len plaintext) = true ->
  exists v,
    resolve_variant vendor variant_name (Z.of_nat (String.length variant_name))
    = Some v /\
    let r := decrypt_fn v (ptr_add (ptr_of ct) (len plaintext)) (ptr_of ct)
                        (len plaintext) (buf aad) (len aad)
                        (buf nonce) (buf key) in
    let called := [EvAlloc (len plaintext);
                   EvDecrypt (name v) (len plaintext) (len aad)] in
    (dec_rc r <> 0 ->
     native_decrypt heap vendor key nonce aad (view_of_bytes ct)
                    variant_name tr0
     = (Py_None, tr0 ++ called ++ [EvDecref; EvReleaseBuffers])) /\
    (dec_rc r = 0 ->
     exists pt,
       native_decrypt heap vendor key nonce aad (view_of_bytes ct)
                      variant_name tr0
       = (PyBytes pt, tr0 ++ called ++ [EvReleaseBuffers]) /\
       Z.of_nat (length pt) = len plaintext).
Proof.
  intros Ha Henc Hheap.
  apply (encrypt_success_inv dm) in Henc
    as (v & Hv & Hk & Hn & Ht & Hrc & -> & ->); [|assumption].
  destruct Ha as [Ha0 Ha1].
  set (ct := view_of_bytes (encrypt_output heap key nonce aad plaintext v)).
  assert (Hlen : len ct = len plaintext + 16)
    by (unfold ct; simpl; rewrite length_encrypt_output; lia).
  assert (Hbody : len ct - 16 = len plaintext) by lia.
  assert (Hcall : decrypt_call key nonce aad ct v
                  = decrypt_fn v
                      (ptr_add (ptr_of (encrypt_output heap key nonce aad
                                                       plaintext v))
                               (len plaintext))
                      (ptr_of (encrypt_output heap key nonce aad plaintext v))
                      (len plaintext) (buf aad) (len aad)
                      (buf nonce) (buf key))
    by (unfold decrypt_call; now rewrite Hbody).
  exists v. split; [assumption|]. cbv zeta. rewrite <- Hcall. split.
  - intros Hrc'.
    rewrite (decrypt_refused dm heap vendor key nonce aad ct variant_name tr0 v);
      rewrite ?Hbody; auto; lia.
  - intros Hrc'. eexists. split.
    + rewrite (decrypt_returns dm heap vendor key nonce aad ct variant_name
                               tr0 v); rewrite ?Hbody; auto; lia.
    + unfold decrypt_output.
      rewrite length_store, length_map, length_seqZ. lia.
Qed.

Lemma decrypt_accepts_what_encrypt_returns_witness :
  exists pt,
    native_decrypt plenty Pad.vendor sample_key sample_nonce sample_aad
                   (view_of_bytes sample_ciphertext) "Ascon-AEAD128" []
    = (PyBytes pt,
       [EvAlloc 5; EvDecrypt "Ascon-AEAD128" 5 3; EvReleaseBuffers]) /\
    Z.of_nat (length pt) = 5.
Proof.
  edestruct (decrypt_accepts_what_encrypt_returns LP64 plenty Pad.vendor
               sample_key sample_nonce sample_aad (view_of_string "hello")
               "Ascon-AEAD128" []
               [EvAlloc 21; EvEncrypt "Ascon-AEAD128" 5 3; EvReleaseBuffers]
               [] sample_ciphertext)
    as (v & Hv & _ & Hok);
    [evaluated|vm_compute; reflexivity|reflexivity|].
  injection Hv as <-.
  destruct Hok as (pt & Heq & Hlen); [vm_compute; reflexivity|].
  exists pt. split; [exact Heq|exact Hlen].
Defined.

(** ** Each name reaches its own primitives *)

Lemma resolve_ascon128 (vendor : ascon_c) :
  resolve_variant vendor "Ascon-AEAD128"
                  (Z.of_nat (String.length "Ascon-AEAD128"))
  = Some {| name := "Ascon-AEAD128";
            encrypt_fn := ascon128_ascon_aead_encrypt vendor;
            decrypt_fn := ascon128_ascon_aead_decrypt vendor |}.
Proof. reflexivity. Qed.

Lemma resolve_ascon128a (vendor : ascon_c) :
  resolve_variant vendor "Ascon-AEAD128a"
                  (Z.of_nat (String.length "Ascon-AEAD128a"))
  = Some {| name := "Ascon-AEAD128a";
            encrypt_fn := ascon128a_ascon_aead_encrypt vendor;
            decrypt_fn := ascon128a_ascon_aead_decrypt vendor |}.
Proof. reflexivity. Qed.

(** Run both sides of an equation between two calls of an entry point
    through the length checks and the allocation, up to the call of the
    primitive. *)
Ltac lockstep :=
  repeat match goal with
         | |- context [ Z.eqb (len ?v) ?b ] => destruct (Z.eqb (len v) b); simpl
         | |- context [ Z.ltb ?a ?b ] => destruct (Z.ltb a b); simpl
         | |- context [ Z.gtb ?a ?b ] => destruct (Z.gtb a b); simpl
         | |- context [ alloc_ok ?h ?n ] => destruct (alloc_ok h n); simpl
         end.

(** X12. The name "Ascon-AEAD128" reaches only the two entry points
    compiled under the [ascon128] prefix, encrypt for [native_encrypt] and
    decrypt for [native_decrypt], and "Ascon-AEAD128a" only those compiled
    under [ascon128a]: a call under one name has the same result and log
    whatever the other three entry points are. *)
Theorem each_name_reaches_its_own_primitive (dm : data_model)
        (heap : allocator) (vendor vendor' : ascon_c)
        (key nonce aad text : Py_buffer) (tr : trace) :
  (ascon128_ascon_aead_encrypt vendor = ascon128_ascon_aead_encrypt vendor' ->
   native_encrypt dm heap vendor key nonce aad text "Ascon-AEAD128" tr
   = native_encrypt dm heap vendor' key nonce aad text "Ascon-AEAD128" tr) /\
  (ascon128_ascon_aead_decrypt vendor = ascon128_ascon_aead_decrypt vendor' ->
   native_decrypt heap vendor key nonce aad text "Ascon-AEAD128" tr
   = native_decrypt heap vendor' key nonce aad text "Ascon-AEAD128" tr) /\
  (ascon128a_ascon_aead_encrypt vendor = ascon128a_ascon_aead_encrypt vendor' ->
   native_encrypt dm heap vendor key nonce aad text "Ascon-AEAD128a" tr
   = native_encrypt dm heap vendor' key nonce aad text "Ascon-AEAD128a" tr) /\
  (ascon128a_ascon_aead_decrypt vendor = ascon128a_ascon_aead_decrypt vendor' ->
   native_decrypt heap vendor key nonce aad text "Ascon-AEAD128a" tr
   = native_decrypt heap vendor' key nonce aad text "Ascon-AEAD128a" tr).
Proof.
  repeat split; intros Hsame; unfold_c;
    rewrite ?resolve_ascon128, ?resolve_ascon128a;
    lockstep; rewrite ?Hsame; reflexivity.
Qed.

Lemma each_name_reaches_its_own_primitive_witness :
  native_encrypt LP64 plenty faulty_vendor sample_key sample_nonce sample_aad
                 (view_of_string "hello") "Ascon-AEAD128a" []
  = native_encrypt LP64 plenty Pad.vendor sample_key sample_nonce sample_aad
                   (view_of_string "hello") "Ascon-AEAD128a" [] /\
  native_decrypt plenty faulty_vendor sample_key sample_nonce sample_aad
                 (view_of_bytes sample_ciphertext) "Ascon-AEAD128" []
  = native_decrypt plenty Pad.vendor sample_key sample_nonce sample_aad
                   (view_of_bytes sample_ciphertext) "Ascon-AEAD128" [].
Proof.
  pose proof (each_name_reaches_its_own_primitive LP64 plenty faulty_vendor
                Pad.vendor sample_key sample_nonce sample_aad
                (view_of_string "hello") []) as (_ & _ & Henc & _).
  pose proof (each_name_reaches_its_own_primitive LP64 plenty faulty_vendor
                Pad.vendor sample_key sample_nonce sample_aad
                (view_of_bytes sample_ciphertext) []) as (_ & Hdec & _).
  split; [exact (Henc eq_refl)|exact (Hdec eq_refl)].
Defined.

(** ** The name is compared over [name_len] bytes *)

Lemma length_substring_0 (n : nat) (s : string) :
  (n <= String.length s)%nat -> String.length (substring 0 n s) = n.
Proof.
  revert s. induction n as [|n IH]; intros s Hn.
  - now destruct s.
  - destruct s as [|a r]; simpl in *; [lia|]. rewrite IH; lia.
Qed.

Lemma memcmp_substring (m n : nat) (c s : string) :
  (m <= n)%nat -> memcmp c (substring 0 n s) m = memcmp c s m.
Proof.
  revert n c s. induction m as [|m IH]; intros n c s Hmn; [reflexivity|].
  destruct n as [|n]; [lia|].
  destruct s as [|a r]; [reflexivity|].
  simpl. destruct (Ascii.eqb (head_byte c) a); [|reflexivity].
  apply IH. lia.
Qed.

(** X13. [resolve_variant(name, name_len)] compares [name_len] bytes of
    the name and no more: on a buffer that holds at least [name_len]
    bytes, its answer is the one it gives for the string made of the first
    [name_len] bytes. *)
Theorem resolve_variant_reads_name_len_bytes (vendor : ascon_c)
        (name_ : string) (n : nat) :
  (n <= String.length name_)%nat ->
  resolve_variant vendor name_ (Z.of_nat n)
  = resolve_variant vendor (substring 0 n name_)
                    (Z.of_nat (String.length (substring 0 n name_))).
Proof.
  intros Hn. rewrite length_substring_0 by assumption.
  unfold resolve_variant.
  induction (kVariants vendor) as [|entry rest IH]; [reflexivity|].
  simpl. destruct (Z.eqb_spec (Z.of_nat (strlen (name entry))) (Z.of_nat n))
    as [Heq|Hne]; simpl; [|exact IH].
  rewrite memcmp_substring by lia. now rewrite IH.
Qed.

Lemma resolve_variant_reads_name_len_bytes_witness :
  resolve_variant Pad.vendor "Ascon-AEAD128a" 13
  = nth_error (kVariants Pad.vendor) 0.
Proof.
  exact (resolve_variant_reads_name_len_bytes Pad.vendor "Ascon-AEAD128a" 13
           ltac:(simpl; lia)).
Defined.

(** ** The output buffer is not cleared *)

Lemma store_prefix (out data : list byte) :
  (length data <= length out)%nat ->
  store out 0 data = data ++ drop (length data) out.
Proof.
  intros Hlen. unfold store. change (Z.to_nat 0) with 0%nat.
  rewrite <- (take_drop (length data) out) at 1.
  apply list_inserts_0_r. rewrite length_take. lia.
Qed.

(** X14. When decrypt succeeds, the bytes it returns are the bytes the
    primitive stored, followed, if the primitive stored fewer than
    [ciphertext.len - 16] bytes, by whatever the allocator left in the
    rest of the fresh buffer: the binding neither clears nor trims it.
    The plaintext is free of uninitialised bytes exactly because the
    primitive fills the whole body. *)
Theorem decrypt_returns_the_buffer_as_stored (dm : data_model)
        (heap : allocator) (vendor : ascon_c)
        (key nonce aad ciphertext : Py_buffer) (variant_name : string)
        (tr : trace) (v : ascon_variant) :
  len key = 16 -> 16 <= len nonce ->
  parsed dm ciphertext -> 16 <= len ciphertext -> parsed dm aad ->
  resolve_variant vendor variant_name (Z.of_nat (String.length variant_name))
  = Some v ->
  alloc_ok heap (len ciphertext - 16) = true ->
  let r := decrypt_fn v (ptr_add (buf ciphertext) (len ciphertext - 16))
                      (buf ciphertext) (len ciphertext - 16)
                      (buf aad) (len aad) (buf nonce) (buf key) in
  let fresh := map (uninitialised heap) (seqZ 0 (len ciphertext - 16)) in
  dec_rc r = 0 ->
  Z.of_nat (length (dec_m r)) <= len ciphertext - 16 ->
  fst (native_decrypt heap vendor key nonce aad ciphertext variant_name tr)
  = PyBytes (dec_m r ++ drop (length (dec_m r)) fresh) /\
  (Z.of_nat (length (dec_m r)) = len ciphertext - 16 ->
   fst (native_decrypt heap vendor key nonce aad ciphertext variant_name tr)
   = PyBytes (dec_m r)).
Proof.
  intros Hk Hn [Hc0 Hc1] Hc [Ha0 Ha1] Hv Hheap. cbv zeta. intros Hrc Hlen.
  rewrite (decrypt_returns dm heap vendor key nonce aad ciphertext
                           variant_name tr v) by (assumption || lia).
  simpl. unfold decrypt_output, decrypt_call.
  rewrite store_prefix by (rewrite length_map, length_seqZ; lia).
  split; [reflexivity|].
  intros Hfull. f_equal.
  rewrite drop_ge by (rewrite length_map, length_seqZ; lia).
  apply app_nil_r.
Qed.

Lemma decrypt_returns_the_buffer_as_stored_witness :
  fst (native_decrypt plenty silent_vendor sample_key sample_nonce sample_aad
                      (view_of_bytes sample_ciphertext) "Ascon-AEAD128a" [])
  = PyBytes [xaa; xaa; xaa; xaa; xaa] /\
  fst (native_decrypt plenty Pad.vendor sample_key sample_nonce sample_aad
                      (view_of_bytes sample_ciphertext) "Ascon-AEAD128" [])
  = PyBytes (list_byte_of_string "hello").
Proof.
  split.
  - edestruct (decrypt_returns_the_buffer_as_stored LP64 plenty silent_vendor
                 sample_key sample_nonce sample_aad
                 (view_of_bytes sample_ciphertext) "Ascon-AEAD128a" [])
      as [Hleak _]; [evaluated..|].
    rewrite Hleak. vm_compute. reflexivity.
  - edestruct (decrypt_returns_the_buffer_as_stored LP64 plenty Pad.vendor
                 sample_key sample_nonce sample_aad
                 (view_of_bytes sample_ciphertext) "Ascon-AEAD128" [])
      as [_ Hfull]; [evaluated..|].
    rewrite Hfull; vm_compute; reflexivity.
Defined.
